(** * Slot calendar engine of booking_agent_v2: a shallow embedding

    This development embeds [app/calendar/slot_calendar.py] (the SQLite
    backed booking engine) and [app/calendar/slot_calendar_tools.py] (the
    tool adapter) and proves or refutes the properties stated for them.

    Modelling choices.
    - Python exceptions are the constructors of [exn]; a computation that
      may raise has type [res A] (ok value or raised exception), with a
      small monad [x <- c ;; k] and a [try_with] combinator for the
      source's [try]/[except] blocks.
    - Strings are [String.string] (ASCII text).  SQLite compares TEXT
      columns byte-wise ([text_lt]).
    - A [datetime] with minute resolution is the number of minutes since
      0001-01-01 00:00; its valid range is that of Python's [datetime]
      (up to 9999-12-31 23:59).  Adding a [timedelta] outside this range
      raises [OverflowError].
    - The [bookings] table is a list of rows plus the AUTOINCREMENT
      counter; each statement either runs or raises the [sqlite3.Error]
      described by a [faults] record (the storage layer failing). *)

From Stdlib Require Import ZArith Lia List Bool String Ascii.
From Stdlib Require Import Numbers.DecimalString.
Import ListNotations.
Open Scope string_scope.
Open Scope Z_scope.

(* ------------------------------------------------------------------ *)
(** ** Exceptions and the result monad *)

Inductive exn :=
| ValueError (msg : string)
| OverflowError (msg : string)
| TypeError (msg : string)
| AttributeError (msg : string)
| SqliteError (msg : string).

(** [str(e)] *)
Definition exn_str (e : exn) : string :=
  match e with
  | ValueError m | OverflowError m | TypeError m
  | AttributeError m | SqliteError m => m
  end.

Inductive res (A : Type) :=
| Ok (a : A)
| Raise (e : exn).
Arguments Ok {A} a.
Arguments Raise {A} e.

Definition bind {A B} (c : res A) (k : A -> res B) : res B :=
  match c with
  | Ok a => k a
  | Raise e => Raise e
  end.

Notation "x <- c ;; k" := (bind c (fun x => k))
  (at level 61, c at next level, right associativity).
Notation "c ;;; k" := (bind c (fun _ => k))
  (at level 61, right associativity).

(** [try: body except ...: handler]: the handler sees every raised
    exception and either recovers or re-raises. *)
Definition try_with {A} (body : res A) (handler : exn -> res A) : res A :=
  match body with
  | Ok a => Ok a
  | Raise e => handler e
  end.

(* ------------------------------------------------------------------ *)
(** ** Characters, decimal strings and SQLite text comparison *)

Definition is_digit (c : ascii) : bool :=
  (48 <=? nat_of_ascii c)%nat && (nat_of_ascii c <=? 57)%nat.

Definition digit_val (c : ascii) : option Z :=
  if is_digit c then Some (Z.of_nat (nat_of_ascii c) - 48) else None.

Definition digit_char (d : Z) : ascii := ascii_of_nat (Z.to_nat (48 + d)).

(** [f"{n:02d}"] for [0 <= n < 100] *)
Definition two_digits (n : Z) : string :=
  String (digit_char (n / 10)) (String (digit_char (n mod 10)) EmptyString).

(** [str(n)] *)
Definition dec_string (n : Z) : string := NilZero.string_of_int (Z.to_int n).

(** SQLite's BINARY collation: byte-wise comparison, a proper prefix
    sorting first. *)
Fixpoint text_lt (s1 s2 : string) : bool :=
  match s1, s2 with
  | EmptyString, EmptyString => false
  | EmptyString, String _ _ => true
  | String _ _, EmptyString => false
  | String c1 r1, String c2 r2 =>
      if (nat_of_ascii c1 <? nat_of_ascii c2)%nat then true
      else if (nat_of_ascii c2 <? nat_of_ascii c1)%nat then false
      else text_lt r1 r2
  end.

(** [needle in haystack] for strings *)
Fixpoint str_contains (needle hay : string) : bool :=
  match hay with
  | EmptyString => String.prefix needle hay
  | String _ rest => String.prefix needle hay || str_contains needle rest
  end.

(* ------------------------------------------------------------------ *)
(** ** Calendar arithmetic (Python's [datetime] proleptic Gregorian
       ordinals, [_ymd2ord] and [_ord2ymd]) *)

Definition is_leap (y : Z) : bool :=
  (y mod 4 =? 0) && (negb (y mod 100 =? 0) || (y mod 400 =? 0)).

(** [_DAYS_IN_MONTH] (non-leap), index 1..12 *)
Definition days_in_month_tbl (m : Z) : Z :=
  if m =? 2 then 28
  else if (m =? 4) || (m =? 6) || (m =? 9) || (m =? 11) then 30
  else 31.

Definition days_in_month (y m : Z) : Z :=
  days_in_month_tbl m + (if (m =? 2) && is_leap y then 1 else 0).

(** [_DAYS_BEFORE_MONTH] (non-leap), index 1..12 *)
Definition days_before_month_tbl (m : Z) : Z :=
  match m with
  | 1 => 0 | 2 => 31 | 3 => 59 | 4 => 90 | 5 => 120 | 6 => 151
  | 7 => 181 | 8 => 212 | 9 => 243 | 10 => 273 | 11 => 304 | 12 => 334
  | _ => 0
  end.

Definition days_before_year (y : Z) : Z :=
  let y' := y - 1 in y' * 365 + y' / 4 - y' / 100 + y' / 400.

Definition days_before_month (y m : Z) : Z :=
  days_before_month_tbl m + (if (2 <? m) && is_leap y then 1 else 0).

Definition ymd2ord (y m d : Z) : Z :=
  days_before_year y + days_before_month y m + d.

Definition ord2ymd (n0 : Z) : Z * Z * Z :=
  let n := n0 - 1 in
  let n400 := n / 146097 in let n := n mod 146097 in
  let n100 := n / 36524 in let n := n mod 36524 in
  let n4 := n / 1461 in let n := n mod 1461 in
  let n1 := n / 365 in let n := n mod 365 in
  let year := n400 * 400 + 1 + n100 * 100 + n4 * 4 + n1 in
  if (n1 =? 4) || (n100 =? 4) then (year - 1, 12, 31)
  else
    let leapyear := (n1 =? 3) && (negb (n4 =? 24) || (n100 =? 3)) in
    let month := Z.shiftr (n + 50) 5 in
    let preceding := days_before_month_tbl month
                     + (if (2 <? month) && leapyear then 1 else 0) in
    let '(month, preceding) :=
      if n <? preceding then
        (month - 1, preceding - (days_in_month_tbl (month - 1)
                                 + (if (month - 1 =? 2) && leapyear then 1 else 0)))
      else (month, preceding) in
    (year, month, n - preceding + 1).

(** [date.max.toordinal()] *)
Definition MAXORDINAL : Z := 3652059.

(** A [datetime] with zero seconds: minutes since 0001-01-01 00:00. *)
Definition datetime := Z.

Definition MAX_DT : Z := MAXORDINAL * 1440.

Definition combine_datetime (ord : Z) (tod : Z) : datetime := (ord - 1) * 1440 + tod.
Definition dt_date (dt : datetime) : Z := dt / 1440 + 1.
Definition dt_time (dt : datetime) : Z := dt mod 1440.

(** [dt + timedelta(minutes=delta)] *)
Definition dt_add (dt : datetime) (delta : Z) : res datetime :=
  let r := dt + delta in
  if (0 <=? r) && (r <? MAX_DT) then Ok r
  else Raise (OverflowError "date value out of range").

(** [date + timedelta(days=k)] as an ordinal *)
Definition date_add_days (ord k : Z) : res Z :=
  let r := ord + k in
  if (1 <=? r) && (r <=? MAXORDINAL) then Ok r
  else Raise (OverflowError "date value out of range").

(* ------------------------------------------------------------------ *)
(** ** [_parse_time], [_parse_date], [_format_time] and [strftime]

    [datetime.strptime] matches the format's regular expression
    ([%H] is [2[0-3]|[0-1]\d|\d], [%M] is [[0-5]\d|\d], [%Y] is
    [\d\d\d\d], [%m] is [1[0-2]|0[1-9]|[1-9]], [%d] is
    [3[01]|[12]\d|0[1-9]|[1-9]| [1-9]]), raises [ValueError] when it does
    not match or leaves unconverted data, and then builds the date, which
    raises [ValueError] for a year 0 or a day past the month's end.  The
    parsers below return [None] where [strptime] raises [ValueError]. *)

(** one field of the pattern: the alternatives are tried in order *)
Definition match_H (s : string) : option (Z * string) :=
  match s with
  | String c1 s1 =>
      match digit_val c1 with
      | None => None
      | Some d1 =>
          match s1 with
          | String c2 s2 =>
              match digit_val c2 with
              | Some d2 =>
                  if ((d1 =? 2) && (d2 <=? 3)) || (d1 <=? 1)
                  then Some (10 * d1 + d2, s2) else Some (d1, s1)
              | None => Some (d1, s1)
              end
          | EmptyString => Some (d1, s1)
          end
      end
  | EmptyString => None
  end.

Definition match_M (s : string) : option (Z * string) :=
  match s with
  | String c1 s1 =>
      match digit_val c1 with
      | None => None
      | Some d1 =>
          match s1 with
          | String c2 s2 =>
              match digit_val c2 with
              | Some d2 => if d1 <=? 5 then Some (10 * d1 + d2, s2) else Some (d1, s1)
              | None => Some (d1, s1)
              end
          | EmptyString => Some (d1, s1)
          end
      end
  | EmptyString => None
  end.

Definition match_Y (s : string) : option (Z * string) :=
  match s with
  | String a (String b (String c (String d r))) =>
      match digit_val a, digit_val b, digit_val c, digit_val d with
      | Some a, Some b, Some c, Some d => Some (1000 * a + 100 * b + 10 * c + d, r)
      | _, _, _, _ => None
      end
  | _ => None
  end.

Definition match_m (s : string) : option (Z * string) :=
  match s with
  | String c1 s1 =>
      match digit_val c1 with
      | None => None
      | Some d1 =>
          let two := match s1 with
                     | String c2 s2 =>
                         match digit_val c2 with
                         | Some d2 =>
                             if ((d1 =? 1) && (d2 <=? 2)) || ((d1 =? 0) && (1 <=? d2))
                             then Some (10 * d1 + d2, s2) else None
                         | None => None
                         end
                     | EmptyString => None
                     end in
          match two with
          | Some r => Some r
          | None => if 1 <=? d1 then Some (d1, s1) else None
          end
      end
  | EmptyString => None
  end.

Definition match_d (s : string) : option (Z * string) :=
  match s with
  | String " " (String c2 s2) =>
      match digit_val c2 with
      | Some d2 => if 1 <=? d2 then Some (d2, s2) else None
      | None => None
      end
  | String c1 s1 =>
      match digit_val c1 with
      | None => None
      | Some d1 =>
          let two := match s1 with
                     | String c2 s2 =>
                         match digit_val c2 with
                         | Some d2 =>
                             if ((d1 =? 3) && (d2 <=? 1)) || ((1 <=? d1) && (d1 <=? 2))
                                || ((d1 =? 0) && (1 <=? d2))
                             then Some (10 * d1 + d2, s2) else None
                         | None => None
                         end
                     | EmptyString => None
                     end in
          match two with
          | Some r => Some r
          | None => if 1 <=? d1 then Some (d1, s1) else None
          end
      end
  | EmptyString => None
  end.

(** [_parse_time(time_str)]: [strptime(time_str, "%H:%M").time()], as
    the minute of the day *)
Definition parse_time (s : string) : option Z :=
  match match_H s with
  | Some (h, String ":" r) =>
      match match_M r with
      | Some (m, EmptyString) => Some (60 * h + m)
      | _ => None
      end
  | _ => None
  end.

(** [_parse_date(date_str)]: [strptime(date_str, "%Y-%m-%d").date()], as
    the proleptic Gregorian ordinal *)
Definition parse_date (s : string) : option Z :=
  match match_Y s with
  | Some (y, String "-" r1) =>
      match match_m r1 with
      | Some (m, String "-" r2) =>
          match match_d r2 with
          | Some (d, EmptyString) =>
              if (1 <=? y) && (d <=? days_in_month y m) then Some (ymd2ord y m d)
              else None
          | _ => None
          end
      | _ => None
      end
  | _ => None
  end.

(** [_format_time(t)]: [t.strftime("%H:%M")] for a minute of the day *)
Definition format_time (tod : Z) : string :=
  two_digits (tod / 60) ++ ":" ++ two_digits (tod mod 60).

(** [dt.strftime("%Y-%m-%d")]; glibc writes [%Y] without padding. *)
Definition format_date (ord : Z) : string :=
  let '(y, m, d) := ord2ymd ord in
  dec_string y ++ "-" ++ two_digits m ++ "-" ++ two_digits d.

(** [_validate_duration(duration)] *)
Definition validate_duration (duration : Z) : res unit :=
  if (duration <=? 0) || negb (duration mod 15 =? 0)
  then Raise (ValueError "Duration must be a positive integer multiple of 15 minutes.")
  else Ok tt.

(* ------------------------------------------------------------------ *)
(** ** Python values

    The engine's parameters are annotated [str], but the tool adapter
    passes on whatever the JSON arguments hold.  The JSON values modelled
    here are [null], booleans, integers and strings. *)

Inductive pyval :=
| PNone
| PBool (b : bool)
| PInt (z : Z)
| PStr (s : string).

Definition type_name (v : pyval) : string :=
  match v with
  | PNone => "NoneType" | PBool _ => "bool" | PInt _ => "int" | PStr _ => "str"
  end.

(** truth value: [bool(v)] *)
Definition truthy (v : pyval) : bool :=
  match v with
  | PNone => false
  | PBool b => b
  | PInt z => negb (z =? 0)
  | PStr s => negb (String.eqb s "")
  end.

(** [_parse_date(v)]: [strptime] raises [TypeError] on a non-[str] *)
Definition parse_date_v (v : pyval) : res Z :=
  match v with
  | PStr s =>
      match parse_date s with
      | Some d => Ok d
      | None => Raise (ValueError ("time data '" ++ s ++ "' does not match format '%Y-%m-%d'"))
      end
  | _ => Raise (TypeError ("strptime() argument 1 must be str, not " ++ type_name v))
  end.

(** [_parse_time(v)] *)
Definition parse_time_v (v : pyval) : res Z :=
  match v with
  | PStr s =>
      match parse_time s with
      | Some m => Ok m
      | None => Raise (ValueError ("time data '" ++ s ++ "' does not match format '%H:%M'"))
      end
  | _ => Raise (TypeError ("strptime() argument 1 must be str, not " ++ type_name v))
  end.

(** [len(v)] *)
Definition py_len (v : pyval) : res Z :=
  match v with
  | PStr s => Ok (Z.of_nat (String.length s))
  | _ => Raise (TypeError ("object of type '" ++ type_name v ++ "' has no len()"))
  end.

(** [str(v)] inside an f-string *)
Definition py_str (v : pyval) : string :=
  match v with
  | PNone => "None"
  | PBool true => "True"
  | PBool false => "False"
  | PInt z => dec_string z
  | PStr s => s
  end.

(* ------------------------------------------------------------------ *)
(** ** The [bookings] table (schema of [setup_database]) *)

Record booking := mkBooking {
  booking_id : Z;
  bdate : string;
  start_time : string;
  end_time : string;
  duration_minutes : Z;
  customer_id : string;
  service_name : string
}.

(** The table's rows in insertion order and the AUTOINCREMENT counter. *)
Record table := mkTable { rows : list booking; sqlite_seq : Z }.

Definition empty_table : table := mkTable [] 0.

(** The storage layer: the [sqlite3.Error] (by its message), if any,
    that connecting and running each kind of statement raises. *)
Record faults := mkFaults {
  select_fails : option string;
  insert_fails : option string;
  delete_fails : option string
}.

Definition healthy : faults := mkFaults None None None.

Definition raise_if {A} (f : option string) (k : res A) : res A :=
  match f with
  | Some m => Raise (SqliteError m)
  | None => k
  end.

Section Store.
Variable fs : faults.

(** [SELECT 1 FROM bookings WHERE date = ? AND end_time > ? AND
    start_time < ? LIMIT 1], returning whether a row was found *)
Definition select_overlap (t : table) (date lo hi : string) : res bool :=
  raise_if (select_fails fs)
    (Ok (existsb (fun b => String.eqb (bdate b) date
                           && text_lt lo (end_time b)
                           && text_lt (start_time b) hi) (rows t))).

(** The first, redundant query of [is_slot_available]: [WHERE date = ?
    AND ((start_time < ? AND end_time > ?) OR (start_time < ? AND
    end_time > ?) OR (start_time >= ? AND end_time <= ?))]. *)
Definition select_overlap3 (t : table) (date e s : string) : res bool :=
  raise_if (select_fails fs)
    (Ok (existsb (fun b => String.eqb (bdate b) date
                           && ((text_lt (start_time b) e && text_lt s (end_time b))
                               || (text_lt (start_time b) e && text_lt s (end_time b))
                               || (negb (text_lt (start_time b) s)
                                   && negb (text_lt e (end_time b))))) (rows t))).

(** [INSERT INTO bookings (...) VALUES (...)]; returns [lastrowid].  The
    table has no UNIQUE constraint: the one on [(date, start_time)] is
    commented out in [setup_database]. *)
Definition insert_booking (t : table) (date st et : string) (dur : Z) (cid sn : string)
  : res (Z * table) :=
  raise_if (insert_fails fs)
    (let id := sqlite_seq t + 1 in
     Ok (id, mkTable (rows t ++ [mkBooking id date st et dur cid sn]) id)).

(** [DELETE FROM bookings WHERE booking_id = ?]; returns [rowcount]. *)
Definition delete_booking (t : table) (id : Z) : res (Z * table) :=
  raise_if (delete_fails fs)
    (let kept := filter (fun b => negb (booking_id b =? id)) (rows t) in
     Ok (Z.of_nat (List.length (rows t) - List.length kept), mkTable kept (sqlite_seq t))).

(* ------------------------------------------------------------------ *)
(** ** [is_slot_available], [book_slot], [cancel_booking]

    The [_v] functions take the string parameters as Python values; the
    plain names are their calls with strings, as the engine's own callers
    make them. *)

Definition is_slot_available_v (t : table) (date time : pyval) (duration : Z) : res bool :=
  validate_duration duration ;;;
  try_with
    (d <- parse_date_v date ;;
     tm <- parse_time_v time ;;
     let req_start_dt := combine_datetime d tm in
     req_end_dt <- dt_add req_start_dt duration ;;
     let e := format_time (dt_time req_end_dt) in
     let s := format_time (dt_time req_start_dt) in
     select_overlap3 t (py_str date) e s ;;;
     overlapping <- select_overlap t (py_str date) (py_str time) e ;;
     Ok (negb overlapping))
    (fun ex => match ex with
               | SqliteError _ => Ok false
               | ValueError _ => Ok false
               | _ => Raise ex
               end).

Definition is_slot_available (t : table) (date time : string) (duration : Z) : res bool :=
  is_slot_available_v t (PStr date) (PStr time) duration.

Definition book_slot_v (t : table) (date start_time : pyval) (duration : Z)
  (client_id service_name : pyval) : res (Z * table) :=
  validate_duration duration ;;;
  lc <- py_len client_id ;;
  if 32 <? lc then Raise (ValueError "client_id cannot exceed 32 characters.")
  else
  ls <- py_len service_name ;;
  if 100 <? ls then Raise (ValueError "service_name cannot exceed 100 characters.")
  else
  avail <- is_slot_available_v t date start_time duration ;;
  if negb avail then
    Raise (ValueError ("Slot " ++ py_str date ++ " " ++ py_str start_time ++ " for "
                       ++ dec_string duration ++ " minutes is not available."))
  else
  try_with
    (d <- parse_date_v date ;;
     tm <- parse_time_v start_time ;;
     let req_start_dt := combine_datetime d tm in
     req_end_dt <- dt_add req_start_dt duration ;;
     let end_time_str := format_time (dt_time req_end_dt) in
     insert_booking t (py_str date) (py_str start_time) end_time_str duration
                    (py_str client_id) (py_str service_name))
    (fun ex => match ex with
               | SqliteError m =>
                   if str_contains "UNIQUE constraint failed" m
                   then Raise (ValueError ("Slot " ++ py_str date ++ " " ++ py_str start_time
                       ++ " for " ++ dec_string duration
                       ++ " minutes is not available (database constraint)."))
                   else Raise ex
               | _ => Raise ex
               end).

Definition book_slot (t : table) (date start_time : string) (duration : Z)
  (client_id service_name : string) : res (Z * table) :=
  book_slot_v t (PStr date) (PStr start_time) duration (PStr client_id) (PStr service_name).

(** [cancel_booking(booking_id)] for an integer id.  The [DELETE] binds
    the id as a 64-bit SQLite INTEGER: Python raises [OverflowError]
    while binding an id above [sqlite_max_int], a path this model does
    not represent; properties of a cancellation that reaches the
    [DELETE] are stated for ids up to [sqlite_max_int]. *)
Definition cancel_booking (t : table) (booking_id : Z) : res (bool * table) :=
  if booking_id <=? 0 then Ok (false, t)
  else
  try_with
    (r <- delete_booking t booking_id ;;
     let '(rowcount, t') := r in
     if 0 <? rowcount then Ok (true, t') else Ok (false, t'))
    (fun ex => match ex with
               | SqliteError _ => Ok (false, t)
               | _ => Raise ex
               end).

End Store.

(* ------------------------------------------------------------------ *)
(** ** Slot search: [slots_available_on_day] and [next_available_slot] *)

Section Search.
Variable fs : faults.
Variable t : table.

(** The [while current_check_time < day_end_time] loop of
    [slots_available_on_day]; [cur] is the minute of the day.  The loop
    runs at most 48 times (a day holds 48 half hours), so the fuel never
    runs out. *)
Fixpoint day_scan (fuel : nat) (date : pyval) (duration : Z) (target_date : Z)
  (cur : Z) (available_slots : list string) : res (list string) :=
  match fuel with
  | O => Ok available_slots
  | S fuel' =>
      if cur <? 17 * 60 then
        let time_str := format_time cur in
        a <- is_slot_available_v fs t date (PStr time_str) duration ;;
        let available_slots := if a then (available_slots ++ [time_str])%list else available_slots in
        let current_dt := combine_datetime target_date cur in
        next_dt <- dt_add current_dt 30 ;;
        day_scan fuel' date duration target_date (dt_time next_dt) available_slots
      else Ok available_slots
  end.

Definition slots_available_on_day_v (date : pyval) (duration : Z) : res (list string) :=
  validate_duration duration ;;;
  try_with
    (target_date <- parse_date_v date ;;
     day_scan 48 date duration target_date (9 * 60) [])
    (fun ex => match ex with
               | ValueError _ => Ok []
               | SqliteError _ => Ok []
               | _ => Raise ex
               end).

Definition slots_available_on_day (date : string) (duration : Z) : res (list string) :=
  slots_available_on_day_v (PStr date) duration.

(** The [while current_dt < search_limit_dt] loop of
    [next_available_slot].  Every pass moves [current_dt] strictly
    forward, so [limit - current_dt] passes suffice; an exhausted fuel
    gives the loop's own exit value [None]. *)
Fixpoint scan (fuel : nat) (duration : Z) (search_limit_dt current_dt : datetime)
  : res (option (string * string)) :=
  match fuel with
  | O => Ok None
  | S fuel' =>
      if current_dt <? search_limit_dt then
        let tod := dt_time current_dt in
        if negb ((9 * 60 <=? tod) && (tod <? 17 * 60)) then
          if tod <? 9 * 60 then
            scan fuel' duration search_limit_dt (combine_datetime (dt_date current_dt) (9 * 60))
          else
            (nd <- date_add_days (dt_date current_dt) 1 ;;
             scan fuel' duration search_limit_dt (combine_datetime nd (9 * 60)))
        else
          let date_str := format_date (dt_date current_dt) in
          let time_str := format_time tod in
          a <- is_slot_available fs t date_str time_str duration ;;
          if a then Ok (Some (date_str, time_str))
          else
            (nxt <- dt_add current_dt 15 ;;
             scan fuel' duration search_limit_dt nxt)
      else Ok None
  end.

(** [minute_offset]: from [current_dt] to the next 15-minute mark *)
Definition minute_offset (current_dt : datetime) : Z :=
  let o := 15 - ((dt_time current_dt) mod 60) mod 15 in
  if o =? 15 then 0 else o.

Definition next_available_slot_v (after_date after_time : pyval) (duration : Z)
  : res (option (string * string)) :=
  validate_duration duration ;;;
  try_with
    (d <- parse_date_v after_date ;;
     tm <- parse_time_v after_time ;;
     let current_dt := combine_datetime d tm in
     current_dt <- dt_add current_dt (minute_offset current_dt) ;;
     search_limit_dt <- dt_add current_dt (365 * 1440) ;;
     scan (S (Z.to_nat (search_limit_dt - current_dt))) duration search_limit_dt current_dt)
    (fun ex => match ex with
               | ValueError _ => Ok None
               | SqliteError _ => Ok None
               | _ => Raise ex
               end).

Definition next_available_slot (after_date_time : string * string) (duration : Z)
  : res (option (string * string)) :=
  next_available_slot_v (PStr (fst after_date_time)) (PStr (snd after_date_time)) duration.

End Search.

(* ------------------------------------------------------------------ *)
(** ** The tool adapter ([slot_calendar_tools.py]) *)

(** A JSON object as a Python dict, and a tool's response dict. *)
Definition dict := list (string * pyval).

(** [args.get(k)] *)
Definition get (args : dict) (k : string) : pyval :=
  match find (fun kv => String.eqb (fst kv) k) args with
  | Some (_, v) => v
  | None => PNone
  end.

(** [all([...])] *)
Definition all (vs : list pyval) : bool := forallb truthy vs.

(** [int(s)] for a string: surrounding whitespace, an optional sign and
    decimal digits, single underscores allowed between digits. *)
Definition is_py_space (c : ascii) : bool :=
  let n := nat_of_ascii c in
  (n =? 32)%nat || ((9 <=? n)%nat && (n <=? 13)%nat) || ((28 <=? n)%nat && (n <=? 31)%nat).

Fixpoint drop_spaces (l : list ascii) : list ascii :=
  match l with
  | c :: r => if is_py_space c then drop_spaces r else l
  | [] => []
  end.

Definition strip (s : string) : list ascii :=
  rev (drop_spaces (rev (drop_spaces (list_ascii_of_string s)))).

Fixpoint dec_digits (l : list ascii) (acc : Z) (after_sep : bool) : option Z :=
  match l with
  | [] => if after_sep then None else Some acc
  | c :: r =>
      if Ascii.eqb c "_" then (if after_sep then None else dec_digits r acc true)
      else match digit_val c with
           | Some d => dec_digits r (10 * acc + d) false
           | None => None
           end
  end.

Definition int_of_str (s : string) : option Z :=
  match strip s with
  | c :: r =>
      if Ascii.eqb c "-" then option_map Z.opp (dec_digits r 0 true)
      else if Ascii.eqb c "+" then dec_digits r 0 true
      else dec_digits (c :: r) 0 true
  | [] => None
  end.

(** [int(v)] *)
Definition py_int (v : pyval) : res Z :=
  match v with
  | PInt z => Ok z
  | PBool b => Ok (if b then 1 else 0)
  | PStr s =>
      match int_of_str s with
      | Some z => Ok z
      | None => Raise (ValueError ("invalid literal for int() with base 10: '" ++ s ++ "'"))
      end
  | PNone => Raise (TypeError "int() argument must be a string, a bytes-like object or a real number, not 'NoneType'")
  end.

Definition failure (msg : string) : dict := [("success", PBool false); ("error", PStr msg)].

(** the tools' outer handlers: [except ValueError as e] and
    [except Exception as e] *)
Definition tool_error (e : exn) : dict :=
  match e with
  | ValueError m => failure m
  | _ => failure ("Unexpected error: " ++ exn_str e)
  end.

(** [int(duration)] with the inner [except ValueError] *)
Definition with_duration {A} (duration : pyval) (wrap : dict -> A)
  (k : Z -> A) : A :=
  match py_int duration with
  | Ok d => k d
  | Raise (ValueError _) => wrap (failure "Duration must be an integer")
  | Raise e => wrap (tool_error e)
  end.

Section Tools.
Variable fs : faults.
Variable t : table.

Definition next_available_slot_tool (args : dict) : dict :=
  let after_date := get args "after_date" in
  let after_time := get args "after_time" in
  let duration := get args "duration" in
  if negb (all [after_date; after_time; duration]) then
    failure "Missing required parameters: after_date, after_time, and duration are required"
  else
  with_duration duration id (fun duration =>
    match next_available_slot_v fs t after_date after_time duration with
    | Ok (Some (d, tm)) => [("success", PBool true); ("date", PStr d); ("time", PStr tm)]
    | Ok None => failure "No available slot found within the next year"
    | Raise e => tool_error e
    end).

Definition is_slot_available_tool (args : dict) : dict :=
  let date := get args "date" in
  let time := get args "time" in
  let duration := get args "duration" in
  if negb (all [date; time; duration]) then
    failure "Missing required parameters: date, time, and duration are required"
  else
  with_duration duration id (fun duration =>
    match is_slot_available_v fs t date time duration with
    | Ok available => [("success", PBool true); ("available", PBool available)]
    | Raise e => tool_error e
    end).

Definition book_slot_tool (args : dict) : dict * table :=
  let date := get args "date" in
  let time := get args "time" in
  let duration := get args "duration" in
  let client_id := get args "client_id" in
  let service_name := get args "service_name" in
  if negb (all [date; time; duration; client_id; service_name]) then
    (failure "Missing required parameters: date, time, duration, client_id, and service_name are required", t)
  else
  with_duration duration (fun r => (r, t)) (fun duration =>
    match book_slot_v fs t date time duration client_id service_name with
    | Ok (booked, t') => ([("success", PBool true); ("booked", PInt booked)], t')
    | Raise e => (tool_error e, t)
    end).

(** [release_slot_tool] calls [slot_calendar.release_slot], given here
    as the module attribute it resolves to, if any. *)
Definition release_slot_tool_with
  (release_slot : option (pyval -> pyval -> res (bool * table)))
  (args : dict) : dict * table :=
  let date := get args "date" in
  let time := get args "time" in
  if negb (all [date; time]) then
    (failure "Missing required parameters: date and time are required", t)
  else
  match release_slot with
  | None =>
      (tool_error (AttributeError "module 'app.calendar.slot_calendar' has no attribute 'release_slot'"), t)
  | Some f =>
      match f date time with
      | Ok (released, t') => ([("success", PBool true); ("released", PBool released)], t')
      | Raise e => (tool_error e, t)
      end
  end.

End Tools.

(** [slot_calendar.py] defines [setup_database], [_validate_duration],
    [_parse_time], [_format_time], [_parse_date], [_combine_datetime],
    [_calculate_end_datetime], [is_slot_available], [book_slot],
    [cancel_booking], [slots_available_on_day] and
    [next_available_slot]: it has no attribute [release_slot]. *)
Definition slot_calendar_release_slot : option (pyval -> pyval -> res (bool * table)) := None.

Definition release_slot_tool (fs : faults) (t : table) (args : dict) : dict * table :=
  release_slot_tool_with t slot_calendar_release_slot args.

(* ------------------------------------------------------------------ *)
(** ** The MCP server's tool handler ([app/calendar/mcp/server.py])

    [calendar_tool(name, arguments)] calls the engine functions with the
    values of the arguments dict as they are, without conversion. *)

(** [arguments[k]]; [None] where Python raises [KeyError] *)
Definition subscript (args : dict) (k : string) : option pyval :=
  match find (fun kv => String.eqb (fst kv) k) args with
  | Some (_, v) => Some v
  | None => None
  end.

(** what [calendar_tool] raises: a [KeyError] for a missing argument, or
    a Python exception of the engine or of the handler itself *)
Inductive server_exn :=
| KeyError (k : string)
| PyError (e : exn).

(** what [calendar_tool] returns: the [bool] of [is_slot_available], or
    the text of the one [TextContent] of its list *)
Inductive reply :=
| RBool (b : bool)
| RText (s : string).

(** a returned reply with the store after the call, or a raised exception *)
Inductive sres :=
| SOk (r : reply) (t : table)
| SRaise (e : server_exn).

Definition with_key (args : dict) (k : string) (f : pyval -> sres) : sres :=
  match subscript args k with
  | Some v => f v
  | None => SRaise (KeyError k)
  end.

Definition engine_call {A} (c : res A) (f : A -> sres) : sres :=
  match c with
  | Ok a => f a
  | Raise e => SRaise (PyError e)
  end.

(** [_validate_duration(v)], the first statement of [is_slot_available],
    [book_slot] and [slots_available_on_day], on a JSON value: only an
    [int] (or a [bool]) passes [isinstance(v, int)], and [True] and
    [False] fail the positive multiple-of-15 test.  An [int] goes on to
    the engine function, which validates it. *)
Definition py_duration (v : pyval) : res Z :=
  match v with
  | PInt z => Ok z
  | _ => Raise (ValueError "Duration must be a positive integer multiple of 15 minutes.")
  end.

(** [cancel_booking(v)]: [not isinstance(v, int) or v <= 0] returns
    [False]; [True] passes, and SQLite binds it as 1. *)
Definition cancel_booking_py (fs : faults) (t : table) (v : pyval) : res (bool * table) :=
  match v with
  | PInt z => cancel_booking fs t z
  | PBool true => cancel_booking fs t 1
  | _ => Ok (false, t)
  end.

(** [sep.join(l)] *)
Fixpoint join (sep : string) (l : list string) : string :=
  match l with
  | [] => EmptyString
  | [x] => x
  | x :: r => x ++ sep ++ join sep r
  end.

Definition calendar_tool (fs : faults) (t : table) (name : string) (arguments : dict) : sres :=
  if String.eqb name "is_slot_available" then
    with_key arguments "date" (fun date =>
    with_key arguments "time" (fun time =>
    with_key arguments "duration" (fun duration =>
      engine_call (d <- py_duration duration ;; is_slot_available_v fs t date time d)
        (fun available => SOk (RBool available) t))))
  else if String.eqb name "book_slot" then
    with_key arguments "date" (fun date =>
    with_key arguments "start_time" (fun start_time =>
    with_key arguments "duration" (fun duration =>
    with_key arguments "client_id" (fun client_id =>
    with_key arguments "service_name" (fun service_name =>
      engine_call
        (d <- py_duration duration ;;
         book_slot_v fs t date start_time d client_id service_name)
        (fun r => SOk (RText ("Booking successful. Your booking ID is: " ++ dec_string (fst r)))
                      (snd r)))))))
  else if String.eqb name "cancel_booking" then
    with_key arguments "booking_id" (fun booking_id =>
      engine_call (cancel_booking_py fs t booking_id)
        (fun r => SOk (RText ("Booking " ++ py_str booking_id
                              ++ " has been cancelled successfully.")) (snd r)))
  else if String.eqb name "slots_available_on_day" then
    with_key arguments "date" (fun date =>
    with_key arguments "duration" (fun duration =>
      engine_call (d <- py_duration duration ;; slots_available_on_day_v fs t date d)
        (fun result =>
           match result with
           | [] => SOk (RText ("No available slots found on " ++ py_str date
                               ++ " for duration " ++ py_str duration ++ " minutes.")) t
           | _ => SOk (RText ("Available slots on " ++ py_str date ++ ": "
                              ++ join ", " result)) t
           end)))
  else SRaise (PyError (ValueError ("Unknown tool: " ++ name))).

(* ================================================================== *)
(** * Properties *)

(* ------------------------------------------------------------------ *)
(** ** Auxiliary predicates *)

Definition valid_duration (d : Z) : bool := (0 <? d) && (d mod 15 =? 0).

(** the minute of the day a time string denotes (0 if it does not parse) *)
Definition time_minutes (s : string) : Z :=
  match parse_time s with Some m => m | None => 0 end.

(** a time string written as [_format_time] writes it: [HH:MM] *)
Definition canonical_time (s : string) : bool :=
  match parse_time s with
  | Some m => String.eqb (format_time m) s
  | None => false
  end.

(* ------------------------------------------------------------------ *)
(** ** Time strings *)

(** The table as [book_slot] leaves it after booking 23:00 for 30
    minutes on 2025-04-01. *)
Definition late_evening_table : table :=
  match book_slot healthy empty_table "2025-04-01" "23:00" 30 "client123" "Haircut" with
  | Ok (_, t) => t
  | Raise _ => empty_table
  end.

(** A row as [book_slot] writes it for a booking ending before
    midnight: [HH:MM] times with [end_time = start_time + duration]. *)
(** the largest value of a 64-bit SQLite INTEGER, [2^63 - 1] *)
Definition sqlite_max_int : Z := 9223372036854775807.

(** a date string written as [strftime("%Y-%m-%d")] writes the date it
    denotes (so [2025-04-01], not [2025-4-1]) *)
Definition canonical_date (s : string) : bool :=
  match parse_date s with
  | Some d => String.eqb (format_date d) s
  | None => false
  end.

(** a row whose date string denotes the ordinal [d] *)
Definition booking_on_day (d : Z) (b : booking) : bool :=
  match parse_date (bdate b) with
  | Some d' => d' =? d
  | None => false
  end.

Definition row_ok (b : booking) : bool :=
  canonical_time (start_time b) && canonical_time (end_time b)
  && (time_minutes (end_time b) =? time_minutes (start_time b) + duration_minutes b).

(** Two rows book intersecting half-open intervals
    [start_time, start_time + duration_minutes) on the same calendar day
    (their date strings parse to the same date); for rows satisfying
    [row_ok] this interval is [start_time, end_time). *)
Definition overlaps (a b : booking) : Prop :=
  parse_date (bdate a) = parse_date (bdate b) /\
  time_minutes (start_time a) < time_minutes (start_time b) + duration_minutes b /\
  time_minutes (start_time b) < time_minutes (start_time a) + duration_minutes a.

Definition no_double_booking (t : table) : Prop :=
  ForallOrdPairs (fun a b => ~ overlaps a b) (rows t).

Record request := mkRequest {
  rq_date : string; rq_time : string; rq_duration : Z;
  rq_client : string; rq_service : string
}.

Definition book_request (fs : faults) (t : table) (rq : request) : res (Z * table) :=
  book_slot fs t (rq_date rq) (rq_time rq) (rq_duration rq) (rq_client rq) (rq_service rq).

(** A sequence of [book_slot] calls; a call that raises leaves the table
    as it was (the [with conn:] block rolls back). *)
Definition run_book_slots (fs : faults) (t : table) (rqs : list request) : table :=
  fold_left (fun t rq => match book_request fs t rq with
                         | Ok (_, t') => t'
                         | Raise _ => t
                         end) rqs t.

(** a request with a [YYYY-MM-DD] date and an [HH:MM] start time,
    ending before midnight *)
Definition request_ok (rq : request) : bool :=
  canonical_date (rq_date rq) && canonical_time (rq_time rq)
  && (time_minutes (rq_time rq) + rq_duration rq <? 1440).

(** The start times [slots_available_on_day] tries: [n] half hours
    from minute [cur] of the day. *)
Fixpoint half_hours (cur : Z) (n : nat) : list Z :=
  match n with
  | O => []
  | S n' => cur :: half_hours (cur + 30) n'
  end.

(** 09:00, 09:30, ..., 16:30 *)
Definition day_candidates : list string := map format_time (half_hours (9 * 60) 16).

(** The candidates [T] of a list for which [is_slot_available(date, T,
    duration)] returns [True], in order; an exception of the check
    propagates. *)
Fixpoint filter_available (fs : faults) (t : table) (date : string) (duration : Z)
  (cands : list string) : res (list string) :=
  match cands with
  | [] => Ok []
  | c :: r =>
      a <- is_slot_available fs t date c duration ;;
      rest <- filter_available fs t date duration r ;;
      Ok (if a then c :: rest else rest)
  end.

(** a present but falsy argument: the empty string or the integer 0 *)
Definition empty_or_zero (v : pyval) : bool :=
  match v with
  | PStr s => String.eqb s ""
  | PInt z => z =? 0
  | _ => false
  end.

(** Booking ids in row order strictly increase from above [lo]. *)
Fixpoint ids_increasing (lo : Z) (l : list booking) : bool :=
  match l with
  | [] => true
  | b :: r => (lo <? booking_id b) && ids_increasing (booking_id b) r
  end.

(** The table as AUTOINCREMENT keeps it: positive ids increasing in row
    order, none above the counter [sqlite_seq], which is not negative. *)
Definition ids_ok (t : table) : bool :=
  (0 <=? sqlite_seq t) && ids_increasing 0 (rows t)
  && forallb (fun b => booking_id b <=? sqlite_seq t) (rows t).

(** The overlap query in [is_slot_available] with the request's bounds. *)
Definition overlap_query (date lo hi : string) (b : booking) : bool :=
  String.eqb (bdate b) date && text_lt lo (end_time b) && text_lt (start_time b) hi.

Lemma validate_duration_ok d : valid_duration d = true -> validate_duration d = Ok tt.
Proof.
  unfold valid_duration, validate_duration; intros H.
  apply andb_prop in H as [H1 H2]. apply Z.ltb_lt in H1. apply Z.eqb_eq in H2.
  rewrite H2. replace (d <=? 0) with false by (symmetry; apply Z.leb_gt; lia).
  reflexivity.
Qed.

Lemma nat_of_digit_char d : 0 <= d <= 9 -> nat_of_ascii (digit_char d) = Z.to_nat (48 + d).
Proof.
  intros H. unfold digit_char. apply nat_ascii_embedding. lia.
Qed.

Lemma nat_ltb_to_nat x y : 0 <= x -> 0 <= y -> (Z.to_nat x <? Z.to_nat y)%nat = (x <? y).
Proof.
  intros Hx Hy. destruct (Nat.ltb_spec (Z.to_nat x) (Z.to_nat y));
    destruct (Z.ltb_spec x y); lia.
Qed.

Lemma text_lt_format_time a b :
  0 <= a < 1440 -> 0 <= b < 1440 ->
  text_lt (format_time a) (format_time b) = (a <? b).
Proof.
  intros Ha Hb. unfold format_time, two_digits. cbn [String.append text_lt].
  assert (D : forall x, 0 <= x < 1440 ->
            0 <= x / 60 / 10 <= 9 /\ 0 <= (x / 60) mod 10 <= 9 /\
            0 <= x mod 60 / 10 <= 9 /\ 0 <= (x mod 60) mod 10 <= 9).
  { intros x Hx. repeat split; Z.div_mod_to_equations; lia. }
  destruct (D a Ha) as (a1 & a2 & a3 & a4). destruct (D b Hb) as (b1 & b2 & b3 & b4).
  rewrite !nat_of_digit_char by lia.
  rewrite !nat_ltb_to_nat by lia.
  assert (Ea : a = 600 * (a / 60 / 10) + 60 * ((a / 60) mod 10)
                   + 10 * (a mod 60 / 10) + (a mod 60) mod 10)
    by (Z.div_mod_to_equations; lia).
  assert (Eb : b = 600 * (b / 60 / 10) + 60 * ((b / 60) mod 10)
                   + 10 * (b mod 60 / 10) + (b mod 60) mod 10)
    by (Z.div_mod_to_equations; lia).
  assert (Ma : a mod 60 / 10 <= 5) by (Z.div_mod_to_equations; lia).
  assert (Mb : b mod 60 / 10 <= 5) by (Z.div_mod_to_equations; lia).
  set (p1 := a / 60 / 10) in *. set (p2 := (a / 60) mod 10) in *.
  set (p3 := a mod 60 / 10) in *. set (p4 := (a mod 60) mod 10) in *.
  set (q1 := b / 60 / 10) in *. set (q2 := (b / 60) mod 10) in *.
  set (q3 := b mod 60 / 10) in *. set (q4 := (b mod 60) mod 10) in *.
  clearbody p1 p2 p3 p4 q1 q2 q3 q4. subst a b.
  destruct (Z.ltb_spec (48 + p1) (48 + q1)); [symmetry; apply Z.ltb_lt; lia|].
  destruct (Z.ltb_spec (48 + q1) (48 + p1)); [symmetry; apply Z.ltb_ge; lia|].
  destruct (Z.ltb_spec (48 + p2) (48 + q2)); [symmetry; apply Z.ltb_lt; lia|].
  destruct (Z.ltb_spec (48 + q2) (48 + p2)); [symmetry; apply Z.ltb_ge; lia|].
  cbn [text_lt nat_of_ascii Ascii.nat_of_ascii]. simpl (Nat.ltb _ _).
  destruct (Z.ltb_spec (48 + p3) (48 + q3)); [symmetry; apply Z.ltb_lt; lia|].
  destruct (Z.ltb_spec (48 + q3) (48 + p3)); [symmetry; apply Z.ltb_ge; lia|].
  destruct (Z.ltb_spec (48 + p4) (48 + q4)); [symmetry; apply Z.ltb_lt; lia|].
  destruct (Z.ltb_spec (48 + q4) (48 + p4)); [symmetry; apply Z.ltb_ge; lia|].
  symmetry; apply Z.ltb_ge; lia.
Qed.

Lemma parse_format_time_table :
  forallb (fun m => match parse_time (format_time m) with
                    | Some m' => m' =? m
                    | None => false
                    end) (map Z.of_nat (seq 0 1440)) = true.
Proof. vm_compute. reflexivity. Qed.

Lemma parse_format_time m : 0 <= m < 1440 -> parse_time (format_time m) = Some m.
Proof.
  intros Hm. pose proof parse_format_time_table as T.
  rewrite forallb_forall in T.
  specialize (T m). rewrite in_map_iff in T.
  destruct (parse_time (format_time m)) as [m'|] eqn:E.
  - assert (Hin : exists x, Z.of_nat x = m /\ In x (seq 0 1440)).
    { exists (Z.to_nat m). split; [lia|]. apply in_seq. lia. }
    specialize (T Hin). apply Z.eqb_eq in T. subst. reflexivity.
  - exfalso.
    assert (Hin : exists x, Z.of_nat x = m /\ In x (seq 0 1440)).
    { exists (Z.to_nat m). split; [lia|]. apply in_seq. lia. }
    specialize (T Hin). discriminate.
Qed.

Lemma digit_val_range c d : digit_val c = Some d -> 0 <= d <= 9.
Proof.
  unfold digit_val, is_digit. destruct (_ && _) eqn:E; [|discriminate].
  apply andb_prop in E as [E1 E2]. apply Nat.leb_le in E1, E2.
  intros H; injection H as <-. lia.
Qed.

Lemma match_H_range s h r : match_H s = Some (h, r) -> 0 <= h <= 23.
Proof.
  unfold match_H. destruct s as [|c1 s1]; [discriminate|].
  destruct (digit_val c1) as [d1|] eqn:E1; [|discriminate].
  apply digit_val_range in E1.
  destruct s1 as [|c2 s2].
  - intros H; injection H as <- _. lia.
  - destruct (digit_val c2) as [d2|] eqn:E2.
    + apply digit_val_range in E2.
      destruct ((d1 =? 2) && (d2 <=? 3) || (d1 <=? 1)) eqn:C.
      * intros H. assert (Hh : h = 10 * d1 + d2) by congruence. subst h.
        apply orb_prop in C as [C|C].
        -- apply andb_prop in C as [C1 C2]. apply Z.eqb_eq in C1. apply Z.leb_le in C2. lia.
        -- apply Z.leb_le in C. lia.
      * intros H; injection H as <- _. lia.
    + intros H; injection H as <- _. lia.
Qed.

Lemma match_M_range s m r : match_M s = Some (m, r) -> 0 <= m <= 59.
Proof.
  unfold match_M. destruct s as [|c1 s1]; [discriminate|].
  destruct (digit_val c1) as [d1|] eqn:E1; [|discriminate].
  apply digit_val_range in E1.
  destruct s1 as [|c2 s2].
  - intros H; injection H as <- _. lia.
  - destruct (digit_val c2) as [d2|] eqn:E2.
    + apply digit_val_range in E2.
      destruct (d1 <=? 5) eqn:C; intros H.
      * assert (Hm : m = 10 * d1 + d2) by congruence. apply Z.leb_le in C. lia.
      * assert (Hm : m = d1) by congruence. lia.
    + intros H; injection H as <- _. lia.
Qed.

Lemma parse_time_range s m : parse_time s = Some m -> 0 <= m < 1440.
Proof.
  unfold parse_time.
  destruct (match_H s) as [[h r]|] eqn:EH; [|discriminate].
  apply match_H_range in EH.
  destruct r as [|c r]; [discriminate|].
  destruct (Ascii.ascii_dec c ":") as [->|Hc].
  - destruct (match_M r) as [[mm rr]|] eqn:EM; [|discriminate].
    apply match_M_range in EM.
    destruct rr; [|discriminate]. intros H. assert (Hm : m = 60 * h + mm) by congruence. lia.
  - destruct c as [[] [] [] [] [] [] [] []]; try discriminate; exfalso; apply Hc; reflexivity.
Qed.

Lemma canonical_time_spec s :
  canonical_time s = true -> s = format_time (time_minutes s) /\ 0 <= time_minutes s < 1440.
Proof.
  unfold canonical_time, time_minutes.
  destruct (parse_time s) as [m|] eqn:E; [|discriminate].
  intros H. apply String.eqb_eq in H. split; [congruence|].
  eapply parse_time_range; eauto.
Qed.

Lemma canonical_format_time m : 0 <= m < 1440 -> canonical_time (format_time m) = true.
Proof.
  intros H. unfold canonical_time. rewrite parse_format_time by exact H.
  apply String.eqb_refl.
Qed.

Lemma time_minutes_format m : 0 <= m < 1440 -> time_minutes (format_time m) = m.
Proof. intros H. unfold time_minutes. now rewrite parse_format_time. Qed.

(* ------------------------------------------------------------------ *)
(** ** Date strings *)

Lemma match_Y_range s y r : match_Y s = Some (y, r) -> 0 <= y <= 9999.
Proof.
  unfold match_Y.
  destruct s as [|a [|b [|c [|d r']]]]; try discriminate.
  destruct (digit_val a) as [a'|] eqn:Ea; [|discriminate].
  destruct (digit_val b) as [b'|] eqn:Eb; [|discriminate].
  destruct (digit_val c) as [c'|] eqn:Ec; [|discriminate].
  destruct (digit_val d) as [d'|] eqn:Ed; [|discriminate].
  apply digit_val_range in Ea, Eb, Ec, Ed.
  intros H. assert (Hy : y = 1000 * a' + 100 * b' + 10 * c' + d') by congruence. lia.
Qed.

Lemma match_m_range s m r : match_m s = Some (m, r) -> 1 <= m <= 12.
Proof.
  unfold match_m. destruct s as [|c1 s1]; [discriminate|].
  destruct (digit_val c1) as [d1|] eqn:E1; [|discriminate].
  apply digit_val_range in E1.
  destruct s1 as [|c2 s2].
  - destruct (1 <=? d1) eqn:C; [|discriminate]. apply Z.leb_le in C.
    intros H. assert (m = d1) by congruence. lia.
  - destruct (digit_val c2) as [d2|] eqn:E2.
    + apply digit_val_range in E2.
      destruct ((d1 =? 1) && (d2 <=? 2) || (d1 =? 0) && (1 <=? d2)) eqn:C.
      * intros H. assert (Hm : m = 10 * d1 + d2) by congruence.
        apply orb_prop in C as [C|C]; apply andb_prop in C as [C1 C2];
          apply Z.eqb_eq in C1; apply Z.leb_le in C2; lia.
      * destruct (1 <=? d1) eqn:C'; [|discriminate]. apply Z.leb_le in C'.
        intros H. assert (m = d1) by congruence. lia.
    + destruct (1 <=? d1) eqn:C; [|discriminate]. apply Z.leb_le in C.
      intros H. assert (m = d1) by congruence. lia.
Qed.

Lemma match_d_range s d r : match_d s = Some (d, r) -> 1 <= d.
Proof.
  unfold match_d.
  destruct s as [|c1 s1]; [discriminate|].
  assert (Gen : (match digit_val c1 with
       | Some d1 =>
           match
             match s1 with
             | "" => None
             | String c2 s2 =>
                 match digit_val c2 with
                 | Some d2 =>
                     if (d1 =? 3) && (d2 <=? 1) || (1 <=? d1) && (d1 <=? 2) || (d1 =? 0) && (1 <=? d2)
                     then Some (10 * d1 + d2, s2) else None
                 | None => None
                 end
             end
           with
           | Some r => Some r
           | None => if 1 <=? d1 then Some (d1, s1) else None
           end
       | None => None
       end = Some (d, r) -> 1 <= d)).
  { destruct (digit_val c1) as [d1|] eqn:E1; [|discriminate].
    apply digit_val_range in E1.
    destruct s1 as [|c2 s2].
    - destruct (1 <=? d1) eqn:C; [|discriminate]. apply Z.leb_le in C.
      intros H. assert (d = d1) by congruence. lia.
    - destruct (digit_val c2) as [d2|] eqn:E2.
      + apply digit_val_range in E2.
        destruct ((d1 =? 3) && (d2 <=? 1) || (1 <=? d1) && (d1 <=? 2) || (d1 =? 0) && (1 <=? d2)) eqn:C.
        * intros H. assert (Hd : d = 10 * d1 + d2) by congruence.
          apply orb_prop in C as [C|C]; [apply orb_prop in C as [C|C]|];
            apply andb_prop in C as [C1 C2];
            try apply Z.eqb_eq in C1; try apply Z.leb_le in C1; apply Z.leb_le in C2; lia.
        * destruct (1 <=? d1) eqn:C'; [|discriminate]. apply Z.leb_le in C'.
          intros H. assert (d = d1) by congruence. lia.
      + destruct (1 <=? d1) eqn:C; [|discriminate]. apply Z.leb_le in C.
        intros H. assert (d = d1) by congruence. lia. }
  destruct (Ascii.ascii_dec c1 " ") as [->|Hc].
  - destruct s1 as [|c2 s2]; [exact Gen|].
    destruct (digit_val c2) as [d2|] eqn:E2; [|discriminate].
    destruct (1 <=? d2) eqn:C; [|discriminate]. apply Z.leb_le in C.
    intros H. assert (d = d2) by congruence. lia.
  - destruct c1 as [[] [] [] [] [] [] [] []]; try exact Gen; exfalso; apply Hc; reflexivity.
Qed.

Lemma days_before_year_bounds y :
  1 <= y <= 9998 -> 0 <= days_before_year y <= 3651400.
Proof. unfold days_before_year. intros. Z.div_mod_to_equations. lia. Qed.

Lemma month_tbl_bounds m :
  1 <= m <= 12 ->
  0 <= days_before_month_tbl m /\ days_before_month_tbl m + days_in_month_tbl m <= 365.
Proof.
  intros Hm.
  assert (m = 1 \/ m = 2 \/ m = 3 \/ m = 4 \/ m = 5 \/ m = 6 \/ m = 7 \/ m = 8
          \/ m = 9 \/ m = 10 \/ m = 11 \/ m = 12) by lia.
  repeat match goal with H : _ \/ _ |- _ => destruct H end; subst m; cbn; lia.
Qed.

Lemma ymd2ord_range y m d :
  1 <= y <= 9999 -> 1 <= m <= 12 -> 1 <= d <= days_in_month y m ->
  1 <= ymd2ord y m d <= MAXORDINAL.
Proof.
  intros Hy Hm Hd. pose proof (month_tbl_bounds m Hm) as [T1 T2].
  assert (B : 0 <= days_before_year y /\
              days_before_year y + (if is_leap y then 366 else 365) <= MAXORDINAL).
  { destruct (Z.eq_dec y 9999) as [->|Hy'].
    - change (days_before_year 9999) with 3651694.
      change (is_leap 9999) with false. unfold MAXORDINAL. lia.
    - pose proof (days_before_year_bounds y ltac:(lia)).
      unfold MAXORDINAL. destruct (is_leap y); lia. }
  unfold ymd2ord, days_before_month. unfold days_in_month in Hd.
  generalize dependent (days_before_year y). intros D B.
  destruct (is_leap y); destruct (Z.ltb_spec 2 m); destruct (Z.eqb_spec m 2);
    cbn [andb] in *; lia.
Qed.

Lemma parse_date_range s d : parse_date s = Some d -> 1 <= d <= MAXORDINAL.
Proof.
  unfold parse_date.
  destruct (match_Y s) as [[y r1]|] eqn:EY; [|discriminate].
  apply match_Y_range in EY.
  destruct r1 as [|c r1]; [discriminate|].
  destruct (Ascii.ascii_dec c "-") as [->|Hc].
  2:{ destruct c as [[] [] [] [] [] [] [] []]; try discriminate; exfalso; apply Hc; reflexivity. }
  destruct (match_m r1) as [[m r2]|] eqn:EM; [|discriminate].
  apply match_m_range in EM.
  destruct r2 as [|c r2]; [discriminate|].
  destruct (Ascii.ascii_dec c "-") as [->|Hc].
  2:{ destruct c as [[] [] [] [] [] [] [] []]; try discriminate; exfalso; apply Hc; reflexivity. }
  destruct (match_d r2) as [[dd r3]|] eqn:ED; [|discriminate].
  apply match_d_range in ED.
  destruct r3; [|discriminate].
  destruct ((1 <=? y) && (dd <=? days_in_month y m)) eqn:C; [|discriminate].
  apply andb_prop in C as [C1 C2]. apply Z.leb_le in C1, C2.
  intros H. injection H as <-. apply ymd2ord_range; lia.
Qed.

(* ------------------------------------------------------------------ *)
(** ** Evaluating [is_slot_available] *)

Lemma valid_duration_pos d : valid_duration d = true -> 0 < d /\ d mod 15 = 0.
Proof.
  unfold valid_duration. intros H. apply andb_prop in H as [H1 H2].
  apply Z.ltb_lt in H1. apply Z.eqb_eq in H2. auto.
Qed.

(** Once the request parses and its end is a representable [datetime],
    [is_slot_available] is the negated result of its overlap query, or
    [false] when the storage layer raises. *)
Lemma is_slot_available_eval fs t date time dur d m :
  valid_duration dur = true -> parse_date date = Some d -> parse_time time = Some m ->
  combine_datetime d m + dur < MAX_DT ->
  is_slot_available fs t date time dur =
    match select_fails fs with
    | Some _ => Ok false
    | None =>
        Ok (negb (existsb (fun b => String.eqb (bdate b) date
                                    && text_lt time (end_time b)
                                    && text_lt (start_time b)
                                         (format_time (dt_time (combine_datetime d m + dur))))
                  (rows t)))
    end.
Proof.
  intros Hv Hd Hm Hr.
  pose proof (parse_date_range _ _ Hd). pose proof (parse_time_range _ _ Hm).
  pose proof (valid_duration_pos _ Hv).
  unfold is_slot_available, is_slot_available_v. rewrite (validate_duration_ok _ Hv).
  unfold bind at 1. unfold parse_date_v, parse_time_v. rewrite Hd, Hm.
  cbn [bind]. unfold dt_add.
  replace ((0 <=? combine_datetime d m + dur) && (combine_datetime d m + dur <? MAX_DT))
    with true
    by (unfold combine_datetime in *; symmetry; apply andb_true_intro;
        split; [apply Z.leb_le | apply Z.ltb_lt]; lia).
  unfold select_overlap3, select_overlap, raise_if.
  destruct (select_fails fs); cbn [bind try_with py_str]; reflexivity.
Qed.

Lemma dt_time_same_day d m k :
  0 <= m -> 0 <= k -> m + k < 1440 -> dt_time (combine_datetime d m + k) = m + k.
Proof.
  intros. unfold dt_time, combine_datetime.
  replace ((d - 1) * 1440 + m + k) with ((m + k) + (d - 1) * 1440) by lia.
  rewrite Z.mod_add by lia. apply Z.mod_small. lia.
Qed.

Lemma combine_datetime_in_range d m k :
  1 <= d <= MAXORDINAL -> 0 <= m -> 0 <= k -> m + k < 1440 ->
  combine_datetime d m + k < MAX_DT.
Proof. unfold combine_datetime, MAX_DT, MAXORDINAL. lia. Qed.

Lemma existsb_ext_in {A} (f g : A -> bool) (l : list A) :
  (forall x, In x l -> f x = g x) -> existsb f l = existsb g l.
Proof.
  induction l as [|x l IH]; intros H; [reflexivity|].
  simpl. rewrite (H x (or_introl eq_refl)), IH; [reflexivity|].
  intros y Hy. apply H. right. exact Hy.
Qed.

Lemma text_lt_canonical_l a s :
  0 <= a < 1440 -> canonical_time s = true ->
  text_lt (format_time a) s = (a <? time_minutes s).
Proof.
  intros Ha Hs. destruct (canonical_time_spec s Hs) as [E R].
  set (x := time_minutes s) in *. clearbody x. rewrite E.
  apply text_lt_format_time; assumption.
Qed.

Lemma text_lt_canonical_r s b :
  0 <= b < 1440 -> canonical_time s = true ->
  text_lt s (format_time b) = (time_minutes s <? b).
Proof.
  intros Hb Hs. destruct (canonical_time_spec s Hs) as [E R].
  set (x := time_minutes s) in *. clearbody x. rewrite E.
  apply text_lt_format_time; assumption.
Qed.

(** For dates written [YYYY-MM-DD], comparing the strings is comparing
    the days they denote. *)
Lemma bdate_eqb_on_day b date d :
  canonical_date (bdate b) = true -> canonical_date date = true ->
  parse_date date = Some d ->
  String.eqb (bdate b) date = booking_on_day d b.
Proof.
  unfold canonical_date, booking_on_day. intros Hb Hdt Hd.
  rewrite Hd in Hdt. apply String.eqb_eq in Hdt.
  destruct (parse_date (bdate b)) as [d'|] eqn:E; [|discriminate].
  apply String.eqb_eq in Hb.
  destruct (Z.eqb_spec d' d) as [->|Hne].
  - rewrite <- Hb, <- Hdt. apply String.eqb_refl.
  - apply String.eqb_neq. intros Heq. rewrite Heq, Hd in E. congruence.
Qed.

Lemma canonical_date_inj s1 s2 :
  canonical_date s1 = true -> canonical_date s2 = true ->
  parse_date s1 = parse_date s2 -> s1 = s2.
Proof.
  unfold canonical_date. intros H1 H2 E. rewrite E in H1.
  destruct (parse_date s2); [|discriminate].
  apply String.eqb_eq in H1. apply String.eqb_eq in H2. congruence.
Qed.

(* ------------------------------------------------------------------ *)
(** ** C1: the availability check and half-open interval overlap *)

(** C1 (counterexample).  Two cases.  A request whose end is exactly
    midnight: 23:00 for 60 minutes ends at 24:00, which [_format_time]
    writes "00:00", so the query [start_time < '00:00'] matches no
    booking.  The booking 23:00-23:30 satisfies S < Be and E > Bs
    (1380 < 1410 and 1440 > 1380), yet the slot is reported available.
    And a date spelled otherwise: [strptime] reads "2025-4-1" as the day
    of "2025-04-01", but the query compares the date column as text, so
    a stored 10:00-11:00 booking dated "2025-4-1" does not block
    10:00 for 30 minutes on "2025-04-01". *)
Lemma is_slot_available_midnight_end_misses_overlap :
  rows late_evening_table =
    [mkBooking 1 "2025-04-01" "23:00" "23:30" 30 "client123" "Haircut"] /\
  23 * 60 < 23 * 60 + 30 /\ 23 * 60 + 60 > 23 * 60 /\
  is_slot_available healthy late_evening_table "2025-04-01" "23:00" 60 = Ok true /\
  parse_date "2025-4-1" = parse_date "2025-04-01" /\
  is_slot_available healthy
    (mkTable [mkBooking 1 "2025-4-1" "10:00" "11:00" 60 "client123" "Haircut"] 1)
    "2025-04-01" "10:00" 30 = Ok true.
Proof. vm_compute. repeat split; reflexivity. Qed.

(** The overlap query on [HH:MM] strings compares minutes. *)
Lemma is_slot_available_canonical fs t date d S dur :
  select_fails fs = None ->
  parse_date date = Some d ->
  valid_duration dur = true ->
  0 <= S -> S + dur < 1440 ->
  forallb (fun b => canonical_time (start_time b) && canonical_time (end_time b)) (rows t) = true ->
  is_slot_available fs t date (format_time S) dur =
    Ok (negb (existsb (fun b => String.eqb (bdate b) date
                                && (S <? time_minutes (end_time b))
                                && (time_minutes (start_time b) <? S + dur)) (rows t))).
Proof.
  intros Hf Hd Hv HS HE Hc.
  pose proof (parse_date_range _ _ Hd) as Rd.
  pose proof (valid_duration_pos _ Hv) as [Hpos _].
  rewrite (is_slot_available_eval fs t date (format_time S) dur d S Hv Hd)
    by (try apply parse_format_time; try apply combine_datetime_in_range; lia).
  rewrite Hf.
  rewrite dt_time_same_day by lia.
  do 2 f_equal. apply existsb_ext_in. intros b Hb.
  rewrite forallb_forall in Hc. specialize (Hc b Hb).
  apply andb_prop in Hc as [Hs He].
  rewrite text_lt_canonical_l by (auto; lia).
  rewrite text_lt_canonical_r by (auto; lia).
  reflexivity.
Qed.

(** C1 (amended).  For a date string written [YYYY-MM-DD] denoting the
    day d, a start time S given as [HH:MM] and a valid duration with
    S + duration before 24:00, on a store whose dates are written
    [YYYY-MM-DD] and whose times are [HH:MM] strings, and a storage layer
    that does not fail: [is_slot_available] is true iff no booking on the
    day d has S < Be and S + duration > Bs.  A booking ending at S or
    starting at S + duration (back-to-back) does not block the slot. *)
Theorem is_slot_available_iff_no_overlap t date d S dur :
  canonical_date date = true ->
  parse_date date = Some d ->
  valid_duration dur = true ->
  0 <= S -> S + dur < 1440 ->
  forallb (fun b => canonical_date (bdate b) && canonical_time (start_time b)
                    && canonical_time (end_time b)) (rows t) = true ->
  is_slot_available healthy t date (format_time S) dur =
    Ok (negb (existsb (fun b => booking_on_day d b
                                && (S <? time_minutes (end_time b))
                                && (time_minutes (start_time b) <? S + dur)) (rows t))).
Proof.
  intros Hcd Hd Hv HS HE Hc.
  rewrite forallb_forall in Hc.
  rewrite (is_slot_available_canonical healthy t date d S dur); auto.
  - do 2 f_equal. apply existsb_ext_in. intros b Hb.
    specialize (Hc b Hb). apply andb_prop in Hc as [Hc _].
    apply andb_prop in Hc as [Hc _].
    rewrite (bdate_eqb_on_day b date d Hc Hcd Hd). reflexivity.
  - apply forallb_forall. intros b Hb.
    specialize (Hc b Hb). apply andb_prop in Hc as [Hc He].
    apply andb_prop in Hc as [_ Hs]. rewrite Hs, He. reflexivity.
Qed.

(** Witness for C1: 2025-04-01 10:00 for 60 minutes against the store
    holding 11:00-11:30 (adjacent after) and 09:00-10:00 (adjacent
    before). *)
Lemma is_slot_available_iff_no_overlap_witness :
  is_slot_available healthy
    (mkTable [mkBooking 1 "2025-04-01" "11:00" "11:30" 30 "c" "s";
              mkBooking 2 "2025-04-01" "09:00" "10:00" 60 "c" "s"] 2)
    "2025-04-01" (format_time 600) 60 = Ok true.
Proof.
  rewrite (is_slot_available_iff_no_overlap _ _ 739342 600 60);
    [vm_compute; reflexivity | vm_compute; reflexivity | vm_compute; reflexivity
    | reflexivity | lia | lia | vm_compute; reflexivity].
Defined.

(* ------------------------------------------------------------------ *)
(** ** Inverting [is_slot_available] and [book_slot] *)

Lemma validate_duration_inv d : validate_duration d = Ok tt -> valid_duration d = true.
Proof.
  unfold validate_duration, valid_duration.
  destruct ((d <=? 0) || negb (d mod 15 =? 0)) eqn:E; [discriminate|].
  intros _. apply orb_false_elim in E as [E1 E2].
  apply Z.leb_gt in E1. apply negb_false_iff in E2.
  rewrite E2, andb_true_r. apply Z.ltb_lt. exact E1.
Qed.

(** A date or time string that does not parse makes [is_slot_available]
    report the slot unavailable. *)
Lemma is_slot_available_unparsable fs t date time dur :
  valid_duration dur = true ->
  parse_date date = None \/ parse_time time = None ->
  is_slot_available fs t date time dur = Ok false.
Proof.
  intros Hv Hp. unfold is_slot_available, is_slot_available_v.
  rewrite (validate_duration_ok _ Hv). cbn [bind]. unfold parse_date_v, parse_time_v.
  destruct (parse_date date) as [d|] eqn:Hd.
  - destruct Hp as [Hp|Hp]; [discriminate|]. rewrite Hp. reflexivity.
  - reflexivity.
Qed.

Lemma book_slot_ok_inv fs t date time dur c s id t' :
  book_slot fs t date time dur c s = Ok (id, t') ->
  exists d m,
    valid_duration dur = true /\ parse_date date = Some d /\ parse_time time = Some m /\
    is_slot_available fs t date time dur = Ok true /\ insert_fails fs = None /\
    combine_datetime d m + dur < MAX_DT /\ id = sqlite_seq t + 1 /\
    t' = mkTable (rows t ++ [mkBooking id date time
                               (format_time (dt_time (combine_datetime d m + dur))) dur c s])
                 id.
Proof.
  unfold book_slot, book_slot_v.
  destruct (validate_duration dur) as [[]|e] eqn:Hv; cbn [bind]; [|discriminate].
  cbn [py_len bind].
  destruct (32 <? _); [discriminate|]. cbn [bind].
  destruct (100 <? _); [discriminate|].
  destruct (is_slot_available_v fs t (PStr date) (PStr time) dur) as [avail|e] eqn:Ha;
    cbn [bind]; [|discriminate].
  destruct avail; cbn [negb]; [|discriminate].
  unfold parse_date_v, parse_time_v.
  destruct (parse_date date) as [d|] eqn:Hd; cbn [bind try_with]; [|discriminate].
  destruct (parse_time time) as [m|] eqn:Hm; cbn [bind try_with]; [|discriminate].
  unfold dt_add.
  destruct ((0 <=? combine_datetime d m + dur) && (combine_datetime d m + dur <? MAX_DT)) eqn:Hr;
    cbn [bind try_with]; [|discriminate].
  unfold insert_booking, raise_if. destruct (insert_fails fs) as [msg|] eqn:Hi.
  - cbn [try_with]. destruct (str_contains _ _); discriminate.
  - cbn [try_with py_str]. intros H. injection H as <- <-.
    apply andb_prop in Hr as [_ Hr]. apply Z.ltb_lt in Hr.
    exists d, m. repeat split; auto. apply validate_duration_inv; exact Hv.
Qed.

(* ------------------------------------------------------------------ *)
(** ** C2: no double booking *)

Lemma ForallOrdPairs_app_single {A} (R : A -> A -> Prop) l x :
  ForallOrdPairs R l -> Forall (fun a => R a x) l -> ForallOrdPairs R (l ++ [x]).
Proof.
  induction l as [|a l IH]; intros H1 H2; simpl.
  - constructor; [constructor | constructor].
  - inversion H1; subst. inversion H2; subst. constructor.
    + apply Forall_app. split; [assumption|]. constructor; [assumption | constructor].
    + apply IH; assumption.
Qed.


Lemma book_request_preserves fs t rq id t' :
  Forall (fun b => row_ok b = true) (rows t) ->
  Forall (fun b => canonical_date (bdate b) = true) (rows t) ->
  no_double_booking t ->
  request_ok rq = true ->
  book_request fs t rq = Ok (id, t') ->
  Forall (fun b => row_ok b = true) (rows t') /\
  Forall (fun b => canonical_date (bdate b) = true) (rows t') /\
  no_double_booking t'.
Proof.
  intros Hok Hcd Hnd Hrq Hb.
  destruct rq as [date time dur c s]. unfold book_request in Hb. unfold request_ok in Hrq.
  cbn [rq_date rq_time rq_duration rq_client rq_service] in Hb, Hrq.
  apply book_slot_ok_inv in Hb
    as (d & m & Hv & Hd & Hm & Ha & _ & Hr & Hid & ->).
  apply andb_prop in Hrq as [Hc HE]. apply Z.ltb_lt in HE.
  apply andb_prop in Hc as [Hdc Hc].
  destruct (canonical_time_spec _ Hc) as [Et Rt].
  assert (Hmt : time_minutes time = m) by (unfold time_minutes; rewrite Hm; reflexivity).
  rewrite Hmt in HE, Rt, Et.
  pose proof (valid_duration_pos _ Hv) as [Hpos _].
  rewrite dt_time_same_day by lia.
  destruct (select_fails fs) eqn:Hf.
  { rewrite (is_slot_available_eval fs t date time dur d m Hv Hd Hm Hr), Hf in Ha.
    discriminate. }
  rewrite Et in Ha.
  rewrite (is_slot_available_canonical fs t date d m dur Hf Hd Hv) in Ha; try lia.
  2:{ apply forallb_forall. intros b Hb. rewrite Forall_forall in Hok.
      specialize (Hok b Hb). unfold row_ok in Hok.
      apply andb_prop in Hok as [Hok _]. exact Hok. }
  injection Ha as Ha. apply negb_true_iff in Ha.
  set (x := mkBooking id date time (format_time (m + dur)) dur c s).
  assert (Hx : row_ok x = true).
  { unfold row_ok, x; cbn [start_time end_time duration_minutes].
    rewrite Hc, canonical_format_time by lia. cbn [andb].
    rewrite time_minutes_format, Hmt by lia. apply Z.eqb_refl. }
  split; [|split]; cbn [rows].
  - apply Forall_app. split; [exact Hok|]. constructor; [exact Hx | constructor].
  - apply Forall_app. split; [exact Hcd|]. constructor; [exact Hdc | constructor].
  - unfold no_double_booking. cbn [rows]. apply ForallOrdPairs_app_single; [exact Hnd|].
    apply Forall_forall. intros a Hin (Hda & H1 & H2).
    rewrite Forall_forall in Hok, Hcd. specialize (Hok a Hin). specialize (Hcd a Hin).
    unfold row_ok in Hok. apply andb_prop in Hok as [_ Hend]. apply Z.eqb_eq in Hend.
    unfold x in Hda, H1, H2; cbn [bdate start_time duration_minutes] in Hda, H1, H2.
    rewrite ?Hmt in H1, H2.
    apply (canonical_date_inj _ _ Hcd Hdc) in Hda.
    assert (Hex : existsb (fun b => String.eqb (bdate b) date
                                    && (m <? time_minutes (end_time b))
                                    && (time_minutes (start_time b) <? m + dur)) (rows t) = true).
    { apply existsb_exists. exists a. split; [exact Hin|].
      rewrite Hda, String.eqb_refl. cbn [andb].
      apply andb_true_intro. split; apply Z.ltb_lt; lia. }
    congruence.
Qed.

(** C2 (counterexample).  Two cases.  From the empty table, booking
    23:00 for 60 minutes stores the end time "00:00"; a second booking
    23:30 for 15 minutes on the same date is then found available
    ([end_time > '23:30'] is false for "00:00") and is stored too:
    [23:00, 24:00) and [23:30, 23:45) overlap.  And from the empty table,
    booking 10:00 for 60 minutes on "2025-04-01" and then 10:00 for 60
    minutes on "2025-4-1" stores both: [strptime] reads both strings as
    the same day, but the availability query compares the date column as
    text. *)
Lemma book_slot_midnight_end_double_booking :
  rows (run_book_slots healthy empty_table
          [mkRequest "2025-04-01" "23:00" 60 "client123" "Haircut";
           mkRequest "2025-04-01" "23:30" 15 "client456" "Manicure"]) =
    [mkBooking 1 "2025-04-01" "23:00" "00:00" 60 "client123" "Haircut";
     mkBooking 2 "2025-04-01" "23:30" "23:45" 15 "client456" "Manicure"] /\
  overlaps (mkBooking 1 "2025-04-01" "23:00" "00:00" 60 "client123" "Haircut")
           (mkBooking 2 "2025-04-01" "23:30" "23:45" 15 "client456" "Manicure") /\
  rows (run_book_slots healthy empty_table
          [mkRequest "2025-04-01" "10:00" 60 "client123" "Haircut";
           mkRequest "2025-4-1" "10:00" 60 "client456" "Manicure"]) =
    [mkBooking 1 "2025-04-01" "10:00" "11:00" 60 "client123" "Haircut";
     mkBooking 2 "2025-4-1" "10:00" "11:00" 60 "client456" "Manicure"] /\
  overlaps (mkBooking 1 "2025-04-01" "10:00" "11:00" 60 "client123" "Haircut")
           (mkBooking 2 "2025-4-1" "10:00" "11:00" 60 "client456" "Manicure").
Proof.
  split; [vm_compute; reflexivity|].
  split; [unfold overlaps; vm_compute; repeat split; reflexivity|].
  split; [vm_compute; reflexivity|].
  unfold overlaps. vm_compute. repeat split; reflexivity.
Qed.

(** C2 (amended).  Starting from a table of well-formed rows dated
    [YYYY-MM-DD] with no two bookings of one calendar day overlapping,
    any sequence of [book_slot] calls whose dates are written
    [YYYY-MM-DD], whose start times are [HH:MM] strings and whose
    bookings end before midnight keeps the table so: each call either
    raises, leaving the table unchanged, or adds one row overlapping no
    row of its day. *)
Theorem book_slot_sequence_no_double_booking fs t rqs :
  Forall (fun b => row_ok b = true) (rows t) ->
  Forall (fun b => canonical_date (bdate b) = true) (rows t) ->
  no_double_booking t ->
  Forall (fun rq => request_ok rq = true) rqs ->
  Forall (fun b => row_ok b = true) (rows (run_book_slots fs t rqs)) /\
  Forall (fun b => canonical_date (bdate b) = true) (rows (run_book_slots fs t rqs)) /\
  no_double_booking (run_book_slots fs t rqs).
Proof.
  revert t. induction rqs as [|rq rqs IH]; intros t Hok Hcd Hnd Hrqs;
    [split; [|split]; assumption|].
  inversion Hrqs as [|? ? Hrq Hrest]; subst.
  unfold run_book_slots. cbn [fold_left]. fold (run_book_slots fs).
  destruct (book_request fs t rq) as [[id t']|e] eqn:Hb.
  - destruct (book_request_preserves fs t rq id t' Hok Hcd Hnd Hrq Hb) as (Hok' & Hcd' & Hnd').
    apply IH; assumption.
  - apply IH; assumption.
Qed.

(** Witness for C2: the two requests of the counterexample moved to
    10:00 (60 minutes) and 10:30 (15 minutes); the second is refused. *)
Lemma book_slot_sequence_no_double_booking_witness :
  no_double_booking
    (run_book_slots healthy empty_table
       [mkRequest "2025-04-01" "10:00" 60 "client123" "Haircut";
        mkRequest "2025-04-01" "10:30" 15 "client456" "Manicure"]).
Proof.
  refine (proj2 (proj2 (book_slot_sequence_no_double_booking healthy empty_table _ _ _ _ _))).
  - constructor.
  - constructor.
  - constructor.
  - repeat constructor.
Defined.

(* ------------------------------------------------------------------ *)
(** ** C3: the store does not reject duplicates *)

(** An availability check that succeeds has run both queries on a
    parsed, in-range interval. *)
Lemma is_slot_available_true_inv fs t date time dur :
  is_slot_available fs t date time dur = Ok true ->
  exists d m,
    valid_duration dur = true /\ parse_date date = Some d /\ parse_time time = Some m /\
    combine_datetime d m + dur < MAX_DT /\ select_fails fs = None.
Proof.
  intros H.
  destruct (validate_duration dur) as [[]|e] eqn:Hv.
  2:{ unfold is_slot_available, is_slot_available_v in H. rewrite Hv in H. discriminate. }
  apply validate_duration_inv in Hv.
  destruct (parse_date date) as [d|] eqn:Hd.
  2:{ rewrite is_slot_available_unparsable in H by auto. discriminate. }
  destruct (parse_time time) as [m|] eqn:Hm.
  2:{ rewrite is_slot_available_unparsable in H by auto. discriminate. }
  destruct (Z.ltb_spec (combine_datetime d m + dur) MAX_DT) as [Hr|Hr].
  - rewrite (is_slot_available_eval fs t date time dur d m Hv Hd Hm Hr) in H.
    destruct (select_fails fs); [discriminate|].
    exists d, m. repeat split; auto.
  - exfalso. revert H. unfold is_slot_available, is_slot_available_v.
    rewrite (validate_duration_ok _ Hv). unfold bind at 1.
    unfold parse_date_v, parse_time_v. rewrite Hd, Hm. cbn [bind]. unfold dt_add.
    replace ((0 <=? combine_datetime d m + dur) && (combine_datetime d m + dur <? MAX_DT))
      with false by (symmetry; apply andb_false_intro2; apply Z.ltb_ge; lia).
    cbn [bind try_with]. discriminate.
Qed.

(** A well-formed row of positive duration makes its own start
    unavailable for any booking ending before midnight. *)
Lemma is_slot_available_row_start fs t b dur :
  In b (rows t) -> row_ok b = true -> 0 < duration_minutes b ->
  time_minutes (start_time b) + dur < 1440 ->
  is_slot_available fs t (bdate b) (start_time b) dur <> Ok true.
Proof.
  intros Hin Hok Hpos HE H.
  destruct (is_slot_available_true_inv _ _ _ _ _ H) as (d & m & Hv & Hd & Hm & Hr & Hf).
  rewrite (is_slot_available_eval fs t _ _ dur d m Hv Hd Hm Hr), Hf in H.
  injection H as H. apply negb_true_iff in H.
  unfold row_ok in Hok. apply andb_prop in Hok as [Hok Hend].
  apply andb_prop in Hok as [Hs He]. apply Z.eqb_eq in Hend.
  destruct (canonical_time_spec _ Hs) as [Es Rs].
  assert (Hmt : time_minutes (start_time b) = m) by (unfold time_minutes; rewrite Hm; reflexivity).
  pose proof (valid_duration_pos _ Hv) as [Hdp _].
  assert (Hx : existsb (fun b0 => String.eqb (bdate b0) (bdate b)
                                  && text_lt (start_time b) (end_time b0)
                                  && text_lt (start_time b0)
                                       (format_time (dt_time (combine_datetime d m + dur))))
                       (rows t) = true).
  { apply existsb_exists. exists b. split; [exact Hin|].
    rewrite String.eqb_refl. cbn [andb].
    rewrite dt_time_same_day by lia.
    rewrite text_lt_canonical_r by (auto; lia).
    rewrite Es at 1. rewrite text_lt_canonical_l by (auto; lia).
    apply andb_true_intro. split; apply Z.ltb_lt; lia. }
  congruence.
Qed.

(** C3 (counterexample).  A second [INSERT] at the (date, start_time) of
    a stored booking succeeds and leaves two rows at 2025-04-01 10:00. *)
Lemma insert_booking_accepts_duplicate_slot :
  exists t,
    book_slot healthy empty_table "2025-04-01" "10:00" 60 "client123" "Haircut" = Ok (1, t) /\
    insert_booking healthy t "2025-04-01" "10:00" "11:00" 60 "client456" "Manicure" =
      Ok (2, mkTable [mkBooking 1 "2025-04-01" "10:00" "11:00" 60 "client123" "Haircut";
                      mkBooking 2 "2025-04-01" "10:00" "11:00" 60 "client456" "Manicure"] 2).
Proof. eexists. split; vm_compute; reflexivity. Qed.

(** C3 (amended).  The store's insert has no duplicate guard: whenever
    the [INSERT] itself does not fail it appends the row under the next
    id, also at the (date, start_time) of a stored row [b].  Exact
    duplicates are kept out by [book_slot]'s availability check alone:
    for a well-formed stored row of positive duration, [book_slot] at its
    date and start with a duration ending before midnight never succeeds. *)
Theorem insert_booking_no_unique_guard fs t b e dur c s :
  In b (rows t) -> row_ok b = true -> 0 < duration_minutes b ->
  (insert_fails fs = None ->
   insert_booking fs t (bdate b) (start_time b) e dur c s =
     Ok (sqlite_seq t + 1,
         mkTable (rows t ++ [mkBooking (sqlite_seq t + 1) (bdate b) (start_time b) e dur c s])
                 (sqlite_seq t + 1))) /\
  (time_minutes (start_time b) + dur < 1440 ->
   forall r, book_slot fs t (bdate b) (start_time b) dur c s <> Ok r).
Proof.
  intros Hin Hok Hpos. split.
  - intros Hi. unfold insert_booking, raise_if. rewrite Hi. reflexivity.
  - intros HE [id t'] H.
    destruct (book_slot_ok_inv _ _ _ _ _ _ _ _ _ H) as (d & m & _ & _ & _ & Ha & _).
    exact (is_slot_available_row_start fs t b dur Hin Hok Hpos HE Ha).
Qed.

(** Witness for C3: the row stored by booking 10:00 for 60 minutes. *)
Lemma insert_booking_no_unique_guard_witness :
  let t := mkTable [mkBooking 1 "2025-04-01" "10:00" "11:00" 60 "client123" "Haircut"] 1 in
  let b := mkBooking 1 "2025-04-01" "10:00" "11:00" 60 "client123" "Haircut" in
  insert_booking healthy t "2025-04-01" "10:00" "11:00" 60 "client456" "Manicure" =
    Ok (2, mkTable (rows t ++ [mkBooking 2 "2025-04-01" "10:00" "11:00" 60 "client456" "Manicure"]) 2)
  /\ forall r, book_slot healthy t "2025-04-01" "10:00" 30 "client456" "Manicure" <> Ok r.
Proof.
  intros t b.
  destruct (insert_booking_no_unique_guard healthy t b "11:00" 60 "client456" "Manicure")
    as [H1 _]; [left; reflexivity | vm_compute; reflexivity | cbn; lia |].
  destruct (insert_booking_no_unique_guard healthy t b "11:00" 30 "client456" "Manicure")
    as [_ H2]; [left; reflexivity | vm_compute; reflexivity | cbn; lia |].
  split; [exact (H1 eq_refl) | apply H2; vm_compute; reflexivity].
Defined.

(* ------------------------------------------------------------------ *)
(** ** C4: failing closed *)

(** C4 (counterexample).  The duration is validated before the [try]
    block: with an invalid duration, an unparsable date makes
    [is_slot_available] raise [ValueError] instead of returning [False];
    so does a failing storage layer. *)
Lemma is_slot_available_invalid_duration_raises :
  is_slot_available healthy empty_table "not-a-date" "10:00" 10 =
    Raise (ValueError "Duration must be a positive integer multiple of 15 minutes.") /\
  is_slot_available (mkFaults (Some "database is locked") None None) empty_table
    "2025-04-01" "10:00" 10 =
    Raise (ValueError "Duration must be a positive integer multiple of 15 minutes.").
Proof. split; vm_compute; reflexivity. Qed.

(** C4 (amended).  For a valid duration, [is_slot_available] returns
    [False] when the date or time string does not parse, and when the
    storage layer fails on a parsed interval that [datetime] can
    represent. *)
Theorem is_slot_available_fails_closed fs t date time dur :
  valid_duration dur = true ->
  (parse_date date = None \/ parse_time time = None) \/
  (select_fails fs <> None /\
   forall d m, parse_date date = Some d -> parse_time time = Some m ->
               combine_datetime d m + dur < MAX_DT) ->
  is_slot_available fs t date time dur = Ok false.
Proof.
  intros Hv [Hp | [Hf Hr]].
  - apply is_slot_available_unparsable; assumption.
  - destruct (parse_date date) as [d|] eqn:Hd;
      [| apply is_slot_available_unparsable; auto].
    destruct (parse_time time) as [m|] eqn:Hm;
      [| apply is_slot_available_unparsable; auto].
    rewrite (is_slot_available_eval fs t date time dur d m Hv Hd Hm (Hr d m eq_refl eq_refl)).
    destruct (select_fails fs); [reflexivity | congruence].
Qed.

(** Witness for C4: a locked database, and an unparsable time. *)
Lemma is_slot_available_fails_closed_witness :
  is_slot_available (mkFaults (Some "database is locked") None None) empty_table
    "2025-04-01" "10:00" 30 = Ok false /\
  is_slot_available healthy empty_table "2025-04-01" "25:00" 30 = Ok false.
Proof.
  split.
  - apply is_slot_available_fails_closed; [reflexivity|].
    right. split; [discriminate|].
    intros d m Hd Hm. vm_compute in Hd, Hm. injection Hd as <-. injection Hm as <-.
    vm_compute. reflexivity.
  - apply is_slot_available_fails_closed; [reflexivity|].
    left. right. vm_compute. reflexivity.
Defined.

(* ------------------------------------------------------------------ *)
(** ** C5: storage errors of the writes *)

(** C5 (counterexample).  A failing [DELETE] of an existing booking is
    swallowed: [cancel_booking] returns [False], as for a missing id. *)
Lemma cancel_booking_storage_error_swallowed :
  cancel_booking (mkFaults None None (Some "database is locked"))
    (mkTable [mkBooking 1 "2025-04-01" "10:00" "11:00" 60 "client123" "Haircut"] 1) 1 =
    Ok (false, mkTable [mkBooking 1 "2025-04-01" "10:00" "11:00" 60 "client123" "Haircut"] 1).
Proof. vm_compute. reflexivity. Qed.

(** C5 (amended).  [book_slot] surfaces a failing [INSERT]: once the
    checks before it pass, it raises the [sqlite3.Error] itself (turned
    into [ValueError] when its message reports a UNIQUE constraint).
    [cancel_booking] swallows a failing [DELETE]: it returns [False] and
    the store is unchanged. *)
Theorem book_slot_surfaces_cancel_swallows fs t m :
  (forall date time dur c s,
     insert_fails fs = Some m ->
     (String.length c <= 32)%nat -> (String.length s <= 100)%nat ->
     is_slot_available fs t date time dur = Ok true ->
     book_slot fs t date time dur c s =
       Raise (if str_contains "UNIQUE constraint failed" m
              then ValueError ("Slot " ++ date ++ " " ++ time ++ " for " ++ dec_string dur
                               ++ " minutes is not available (database constraint).")
              else SqliteError m)) /\
  (forall id, delete_fails fs = Some m -> 0 < id -> cancel_booking fs t id = Ok (false, t)).
Proof.
  split.
  - intros date time dur c s Hi Hc Hs Ha.
    destruct (is_slot_available_true_inv _ _ _ _ _ Ha) as (d & mm & Hv & Hd & Hm & Hr & _).
    unfold book_slot, book_slot_v. rewrite (validate_duration_ok _ Hv). cbn [bind py_len].
    replace (32 <? Z.of_nat (String.length c)) with false by (symmetry; apply Z.ltb_ge; lia).
    replace (100 <? Z.of_nat (String.length s)) with false by (symmetry; apply Z.ltb_ge; lia).
    cbn [bind]. unfold is_slot_available in Ha. rewrite Ha. cbn [bind negb].
    unfold parse_date_v, parse_time_v. rewrite Hd, Hm. cbn [bind]. unfold dt_add.
    replace ((0 <=? combine_datetime d mm + dur) && (combine_datetime d mm + dur <? MAX_DT))
      with true.
    2:{ pose proof (parse_date_range _ _ Hd). pose proof (parse_time_range _ _ Hm).
        pose proof (valid_duration_pos _ Hv). unfold combine_datetime in *.
        symmetry. apply andb_true_intro. split; [apply Z.leb_le | apply Z.ltb_lt]; lia. }
    cbn [bind]. unfold insert_booking, raise_if. rewrite Hi. cbn [try_with py_str].
    destruct (str_contains _ _); reflexivity.
  - intros id Hdel Hid. unfold cancel_booking.
    replace (id <=? 0) with false by (symmetry; apply Z.leb_gt; lia).
    unfold delete_booking, raise_if. rewrite Hdel. reflexivity.
Qed.

(** Witness for C5: a locked database refuses the [INSERT] of a free
    slot and the [DELETE] of booking 1. *)
Lemma book_slot_surfaces_cancel_swallows_witness :
  book_slot (mkFaults None (Some "database is locked") (Some "database is locked"))
    empty_table "2025-04-01" "10:00" 30 "client123" "Haircut" =
    Raise (SqliteError "database is locked") /\
  cancel_booking (mkFaults None (Some "database is locked") (Some "database is locked"))
    empty_table 1 = Ok (false, empty_table).
Proof.
  destruct (book_slot_surfaces_cancel_swallows
              (mkFaults None (Some "database is locked") (Some "database is locked"))
              empty_table "database is locked") as [H1 H2].
  split.
  - rewrite (H1 "2025-04-01" "10:00" 30 "client123" "Haircut");
      [vm_compute; reflexivity | reflexivity | cbn; lia | cbn; lia | vm_compute; reflexivity].
  - apply H2; [reflexivity | lia].
Defined.

(* ------------------------------------------------------------------ *)
(** ** C6: [release_slot_tool] *)

(** C6 (evaluation).  After booking 2025-04-01 10:00 for 60 minutes,
    releasing that slot through the tool reports the [AttributeError] of
    the missing [slot_calendar.release_slot] and keeps the booking. *)
Lemma release_slot_tool_existing_booking :
  exists t,
    book_slot healthy empty_table "2025-04-01" "10:00" 60 "client123" "Haircut" = Ok (1, t) /\
    release_slot_tool healthy t [("date", PStr "2025-04-01"); ("time", PStr "10:00")] =
      (failure "Unexpected error: module 'app.calendar.slot_calendar' has no attribute 'release_slot'", t).
Proof. eexists. split; vm_compute; reflexivity. Qed.

(** C6.  [release_slot_tool] never reports success: on every argument
    dict and every store its response has [success] false and the store
    is unchanged; the success payload [{success: true, released: ...}]
    is unreachable. *)
Theorem release_slot_tool_never_succeeds fs t args :
  get (fst (release_slot_tool fs t args)) "success" = PBool false /\
  snd (release_slot_tool fs t args) = t.
Proof.
  unfold release_slot_tool, release_slot_tool_with, slot_calendar_release_slot.
  destruct (negb (all _)); split; reflexivity.
Qed.

(* ------------------------------------------------------------------ *)
(** ** C10: falsy required arguments *)

Lemma all_member_falsy (args : dict) (keys : list string) k :
  In k keys -> empty_or_zero (get args k) = true ->
  all (map (get args) keys) = false.
Proof.
  intros Hin Hz. unfold all. apply not_true_iff_false. intros H.
  rewrite forallb_forall in H.
  specialize (H (get args k) (in_map _ _ _ Hin)).
  destruct (get args k) as [|b|z|s']; cbn in Hz, H; try discriminate.
  - apply Z.eqb_eq in Hz. subst. discriminate.
  - apply String.eqb_eq in Hz. subst. discriminate.
Qed.

(** C10.  A required argument of a tool that is present but falsy, the
    empty string or the integer 0, is reported as missing: the tool
    answers with its [Missing required parameters] failure before any
    call to the engine, and [book_slot_tool] leaves the store unchanged.
    In particular [book_slot_tool] with [duration = 0] gives this failure,
    not the engine's invalid-duration [ValueError]. *)
Theorem tools_falsy_required_missing fs t args :
  (forall k, In k ["after_date"; "after_time"; "duration"] ->
   empty_or_zero (get args k) = true ->
   next_available_slot_tool fs t args =
     failure "Missing required parameters: after_date, after_time, and duration are required") /\
  (forall k, In k ["date"; "time"; "duration"] ->
   empty_or_zero (get args k) = true ->
   is_slot_available_tool fs t args =
     failure "Missing required parameters: date, time, and duration are required") /\
  (forall k, In k ["date"; "time"; "duration"; "client_id"; "service_name"] ->
   empty_or_zero (get args k) = true ->
   book_slot_tool fs t args =
     (failure "Missing required parameters: date, time, duration, client_id, and service_name are required", t)).
Proof.
  split; [|split]; intros k Hin Hz.
  - unfold next_available_slot_tool.
    pose proof (all_member_falsy args _ k Hin Hz) as H. cbn [map] in H.
    rewrite H. reflexivity.
  - unfold is_slot_available_tool.
    pose proof (all_member_falsy args _ k Hin Hz) as H. cbn [map] in H.
    rewrite H. reflexivity.
  - unfold book_slot_tool.
    pose proof (all_member_falsy args _ k Hin Hz) as H. cbn [map] in H.
    rewrite H. reflexivity.
Qed.

(** Witness for C10: [book_slot_tool] with [duration = 0],
    [is_slot_available_tool] with an empty time and
    [next_available_slot_tool] with an empty [after_time]. *)
Lemma tools_falsy_required_missing_witness :
  book_slot_tool healthy empty_table
    [("date", PStr "2025-04-01"); ("time", PStr "10:00"); ("duration", PInt 0);
     ("client_id", PStr "client123"); ("service_name", PStr "Haircut")] =
    (failure "Missing required parameters: date, time, duration, client_id, and service_name are required",
     empty_table) /\
  is_slot_available_tool healthy empty_table
    [("date", PStr "2025-04-01"); ("time", PStr ""); ("duration", PInt 30)] =
    failure "Missing required parameters: date, time, and duration are required" /\
  next_available_slot_tool healthy empty_table
    [("after_date", PStr "2025-04-01"); ("after_time", PStr ""); ("duration", PInt 30)] =
    failure "Missing required parameters: after_date, after_time, and duration are required".
Proof.
  split; [|split].
  - apply (proj2 (proj2 (tools_falsy_required_missing healthy empty_table _)) "duration");
      [cbn; tauto | reflexivity].
  - apply (proj1 (proj2 (tools_falsy_required_missing healthy empty_table _)) "time");
      [cbn; tauto | reflexivity].
  - apply (proj1 (tools_falsy_required_missing healthy empty_table _) "after_time");
      [cbn; tauto | reflexivity].
Defined.

(* ------------------------------------------------------------------ *)
(** ** C7: the candidate walk of [next_available_slot] *)

Lemma minute_offset_rounds dt :
  0 <= dt ->
  (dt + minute_offset dt) mod 15 = 0 /\ dt <= dt + minute_offset dt < dt + 15.
Proof.
  intros Hdt. unfold minute_offset, dt_time.
  pose proof (Z.div_mod dt 1440 ltac:(lia)) as E1.
  pose proof (Z.mod_pos_bound dt 1440 ltac:(lia)) as B1.
  set (r1 := dt mod 1440) in *.
  pose proof (Z.div_mod r1 60 ltac:(lia)) as E2.
  pose proof (Z.mod_pos_bound r1 60 ltac:(lia)) as B2.
  set (r2 := r1 mod 60) in *.
  pose proof (Z.div_mod r2 15 ltac:(lia)) as E3.
  pose proof (Z.mod_pos_bound r2 15 ltac:(lia)) as B3.
  set (r3 := r2 mod 15) in *.
  destruct (Z.eqb_spec (15 - r3) 15) as [H|H].
  - assert (Hq : dt + 0 = (96 * (dt / 1440) + 4 * (r1 / 60) + r2 / 15) * 15) by lia.
    rewrite Hq, Z_mod_mult. split; [reflexivity | lia].
  - assert (Hq : dt + (15 - r3) = (96 * (dt / 1440) + 4 * (r1 / 60) + r2 / 15 + 1) * 15)
      by lia.
    rewrite Hq, Z_mod_mult. split; [reflexivity | lia].
Qed.

(** C7.  The start candidate is the first 15-minute mark at or after
    [after_date@after_time]; a candidate before 09:00 jumps to 09:00 of
    its day, one at or after 17:00 to 09:00 of the next day, without a
    check.  On an empty calendar: 2025-04-01 10:05 for 30 minutes gives
    2025-04-01 10:15, 08:00 gives 09:00 of the same day, and 17:00 gives
    09:00 of the next day. *)
Theorem next_available_slot_rounds_and_skips :
  (forall dt, 0 <= dt ->
     (dt + minute_offset dt) mod 15 = 0 /\ dt <= dt + minute_offset dt < dt + 15) /\
  (forall fs t fuel dur lim cur,
     cur < lim -> dt_time cur < 9 * 60 ->
     scan fs t (S fuel) dur lim cur =
       scan fs t fuel dur lim (combine_datetime (dt_date cur) (9 * 60))) /\
  (forall fs t fuel dur lim cur,
     cur < lim -> 17 * 60 <= dt_time cur ->
     scan fs t (S fuel) dur lim cur =
       (nd <- date_add_days (dt_date cur) 1 ;;
        scan fs t fuel dur lim (combine_datetime nd (9 * 60)))) /\
  next_available_slot healthy empty_table ("2025-04-01", "10:05") 30 =
    Ok (Some ("2025-04-01", "10:15")) /\
  next_available_slot healthy empty_table ("2025-04-01", "08:00") 30 =
    Ok (Some ("2025-04-01", "09:00")) /\
  next_available_slot healthy empty_table ("2025-04-01", "17:00") 30 =
    Ok (Some ("2025-04-02", "09:00")).
Proof.
  split; [exact minute_offset_rounds|].
  split; [|split; [|split; [|split]]].
  - intros fs t fuel dur lim cur Hl Ht. cbn [scan].
    replace (cur <? lim) with true by (symmetry; apply Z.ltb_lt; lia).
    replace (9 * 60 <=? dt_time cur) with false by (symmetry; apply Z.leb_gt; lia).
    cbn [andb negb].
    replace (dt_time cur <? 9 * 60) with true by (symmetry; apply Z.ltb_lt; lia).
    reflexivity.
  - intros fs t fuel dur lim cur Hl Ht. cbn [scan].
    replace (cur <? lim) with true by (symmetry; apply Z.ltb_lt; lia).
    replace (dt_time cur <? 17 * 60) with false by (symmetry; apply Z.ltb_ge; lia).
    rewrite andb_false_r. cbn [negb].
    replace (dt_time cur <? 9 * 60) with false by (symmetry; apply Z.ltb_ge; lia).
    reflexivity.
  - vm_compute. reflexivity.
  - vm_compute. reflexivity.
  - vm_compute. reflexivity.
Qed.

(** Witness for C7: 10:05 on day 1 rounds up to 10:15. *)
Lemma next_available_slot_rounds_and_skips_witness :
  (605 + minute_offset 605) mod 15 = 0 /\ 605 <= 605 + minute_offset 605 < 605 + 15.
Proof. apply (proj1 next_available_slot_rounds_and_skips). lia. Defined.

(* ------------------------------------------------------------------ *)
(** ** C8: [slots_available_on_day] *)

Lemma day_scan_filter fs t date d dur k :
  forall fuel cur acc,
  parse_date date = Some d -> (k <= fuel)%nat -> 0 <= cur ->
  cur + 30 * Z.of_nat k = 17 * 60 ->
  day_scan fs t fuel (PStr date) dur d cur acc =
    (r <- filter_available fs t date dur (map format_time (half_hours cur k)) ;;
     Ok (acc ++ r)%list).
Proof.
  induction k as [|k IH]; intros fuel cur acc Hd Hk Hc He.
  - cbn [half_hours map filter_available bind]. rewrite app_nil_r.
    destruct fuel as [|fuel]; [reflexivity|]. cbn [day_scan].
    replace (cur <? 17 * 60) with false by (symmetry; apply Z.ltb_ge; lia). reflexivity.
  - destruct fuel as [|fuel]; [lia|]. cbn [day_scan half_hours map filter_available].
    replace (cur <? 17 * 60) with true by (symmetry; apply Z.ltb_lt; lia).
    fold (is_slot_available fs t date (format_time cur) dur).
    destruct (is_slot_available fs t date (format_time cur) dur) as [a|e]; cbn [bind];
      [|reflexivity].
    pose proof (parse_date_range _ _ Hd) as Rd.
    unfold dt_add.
    replace ((0 <=? combine_datetime d cur + 30) && (combine_datetime d cur + 30 <? MAX_DT))
      with true.
    2:{ symmetry. apply andb_true_intro. split; [apply Z.leb_le | apply Z.ltb_lt].
        - unfold combine_datetime. lia.
        - apply combine_datetime_in_range; lia. }
    cbn [bind]. rewrite dt_time_same_day by lia.
    rewrite (IH fuel (cur + 30)) by (auto; lia).
    destruct (filter_available fs t date dur (map format_time (half_hours (cur + 30) k)))
      as [rest|e]; cbn [bind]; [|reflexivity].
    destruct a; rewrite <- ?app_assoc; reflexivity.
Qed.

(** [is_slot_available] catches its [ValueError]s and [sqlite3.Error]s:
    for a valid duration it raises only what its handler re-raises. *)
Lemma is_slot_available_raise_kind fs t date time dur e :
  valid_duration dur = true -> is_slot_available fs t date time dur = Raise e ->
  match e with ValueError _ | SqliteError _ => False | _ => True end.
Proof.
  intros Hv. unfold is_slot_available, is_slot_available_v.
  rewrite (validate_duration_ok _ Hv). cbn [bind].
  match goal with |- try_with ?b _ = _ -> _ => destruct b as [x|e'] end;
    cbn [try_with]; [discriminate|].
  destruct e'; intros H; try discriminate; injection H as <-; exact I.
Qed.

Lemma filter_available_raise fs t date dur l e :
  filter_available fs t date dur l = Raise e ->
  exists c, is_slot_available fs t date c dur = Raise e.
Proof.
  induction l as [|c l IH]; cbn [filter_available]; [discriminate|].
  destruct (is_slot_available fs t date c dur) as [a|e'] eqn:Ha; cbn [bind].
  - destruct (filter_available fs t date dur l); cbn [bind]; [discriminate|]. exact IH.
  - intros H. injection H as <-. exists c. exact Ha.
Qed.

(** C8.  For a valid duration, [slots_available_on_day date duration]
    is the list of the 16 half-hour starts 09:00, 09:30, ..., 16:30, in
    this order, kept exactly when [is_slot_available(date, T, duration)]
    returns [True] (an exception of the check propagates), whatever the
    duration, also when the interval would end after 17:00.  On an empty
    calendar it is 09:00, ..., 16:30 for 30 minutes; after booking
    10:00-11:00, 10:00 and 10:30 are absent. *)
Theorem slots_available_on_day_filters fs t date dur :
  valid_duration dur = true ->
  slots_available_on_day fs t date dur = filter_available fs t date dur day_candidates /\
  day_candidates = ["09:00"; "09:30"; "10:00"; "10:30"; "11:00"; "11:30"; "12:00"; "12:30";
                    "13:00"; "13:30"; "14:00"; "14:30"; "15:00"; "15:30"; "16:00"; "16:30"] /\
  slots_available_on_day healthy empty_table "2025-04-01" 30 = Ok day_candidates /\
  (exists t1,
     book_slot healthy empty_table "2025-04-01" "10:00" 60 "client123" "Haircut" = Ok (1, t1) /\
     slots_available_on_day healthy t1 "2025-04-01" 30 =
       Ok ["09:00"; "09:30"; "11:00"; "11:30"; "12:00"; "12:30";
           "13:00"; "13:30"; "14:00"; "14:30"; "15:00"; "15:30"; "16:00"; "16:30"]).
Proof.
  intros Hv. split; [|split; [vm_compute; reflexivity | split;
                             [vm_compute; reflexivity |
                              eexists; split; [vm_compute; reflexivity | vm_compute; reflexivity]]]].
  unfold slots_available_on_day, slots_available_on_day_v.
  rewrite (validate_duration_ok _ Hv). cbn [bind]. unfold parse_date_v.
  destruct (parse_date date) as [d|] eqn:Hd.
  - cbn [bind]. rewrite (day_scan_filter fs t date d dur 16) by (auto; lia).
    unfold day_candidates.
    destruct (filter_available fs t date dur (map format_time (half_hours (9 * 60) 16)))
      as [r|e] eqn:Hf; cbn [bind try_with]; [reflexivity|].
    destruct (filter_available_raise _ _ _ _ _ _ Hf) as [c Hc].
    pose proof (is_slot_available_raise_kind _ _ _ _ _ _ Hv Hc) as Hk.
    destruct e; [contradiction | reflexivity | reflexivity | reflexivity | contradiction].
  - cbn [bind try_with]. unfold day_candidates.
    generalize (map format_time (half_hours (9 * 60) 16)).
    intros l. induction l as [|c l IHl]; [reflexivity|]. cbn [filter_available].
    rewrite is_slot_available_unparsable by auto. cbn [bind]. rewrite <- IHl. reflexivity.
Qed.

(** Witness for C8: 2025-04-01 for 30 minutes on an empty calendar. *)
Lemma slots_available_on_day_filters_witness :
  slots_available_on_day healthy empty_table "2025-04-01" 30 =
    filter_available healthy empty_table "2025-04-01" 30 day_candidates.
Proof. apply (slots_available_on_day_filters healthy empty_table "2025-04-01" 30). reflexivity. Defined.

(* ------------------------------------------------------------------ *)
(** ** C9: the one-year bound of [next_available_slot] *)

(** C9 (evaluation).  [search_limit_dt = current_dt + timedelta(days=365)]
    overflows for a start in the last year [datetime] represents, and the
    [OverflowError] is not caught: on an empty calendar, a search from
    9999-06-01 10:00 raises although 10:00 that day is free, and a search
    from 9999-12-31 17:00, which has no candidate left, raises instead of
    returning [None]. *)
Lemma next_available_slot_last_year_overflows :
  is_slot_available healthy empty_table "9999-06-01" "10:00" 30 = Ok true /\
  next_available_slot healthy empty_table ("9999-06-01", "10:00") 30 =
    Raise (OverflowError "date value out of range") /\
  next_available_slot healthy empty_table ("9999-12-31", "17:00") 30 =
    Raise (OverflowError "date value out of range").
Proof. split; [|split]; vm_compute; reflexivity. Qed.

(* ================================================================== *)
(** * Further properties of the engine *)

(* ------------------------------------------------------------------ *)
(** ** The store: booking ids, cancellation, availability *)

Lemma ids_increasing_lower lo lo' l :
  lo' <= lo -> ids_increasing lo l = true -> ids_increasing lo' l = true.
Proof.
  destruct l as [|b r]; [reflexivity|]. cbn [ids_increasing].
  intros H H1. apply andb_prop in H1 as [H1 H2]. apply Z.ltb_lt in H1.
  rewrite H2, andb_true_r. apply Z.ltb_lt. lia.
Qed.

Lemma ids_increasing_gt lo l b :
  ids_increasing lo l = true -> In b l -> lo < booking_id b.
Proof.
  revert lo. induction l as [|x r IH]; intros lo H Hin; [destruct Hin|].
  cbn [ids_increasing] in H. apply andb_prop in H as [H1 H2]. apply Z.ltb_lt in H1.
  destruct Hin as [<-|Hin]; [exact H1|]. specialize (IH _ H2 Hin). lia.
Qed.

Lemma ids_increasing_snoc lo l x s :
  ids_increasing lo l = true -> lo <= s -> Forall (fun b => booking_id b <= s) l ->
  s < booking_id x -> ids_increasing lo (l ++ [x]) = true.
Proof.
  revert lo. induction l as [|b r IH]; intros lo H Hs Hf Hx; cbn [app ids_increasing].
  - rewrite andb_true_r. apply Z.ltb_lt. lia.
  - cbn [ids_increasing] in H. apply andb_prop in H as [H1 H2].
    inversion Hf as [|? ? Hb Hr]; subst.
    rewrite H1. cbn [andb]. apply IH; auto.
Qed.

Lemma ids_increasing_filter lo l f :
  ids_increasing lo l = true -> ids_increasing lo (filter f l) = true.
Proof.
  revert lo. induction l as [|b r IH]; intros lo H; [reflexivity|].
  cbn [ids_increasing] in H. apply andb_prop in H as [H1 H2]. apply Z.ltb_lt in H1.
  cbn [filter]. destruct (f b).
  - cbn [ids_increasing]. rewrite (proj2 (Z.ltb_lt _ _) H1). cbn [andb]. apply IH, H2.
  - apply (ids_increasing_lower (booking_id b)); [lia|]. apply IH, H2.
Qed.

Lemma ids_ok_spec t :
  ids_ok t = true <->
  0 <= sqlite_seq t /\ ids_increasing 0 (rows t) = true /\
  Forall (fun b => booking_id b <= sqlite_seq t) (rows t).
Proof.
  unfold ids_ok. rewrite !andb_true_iff, forallb_forall, Forall_forall, Z.leb_le.
  split.
  - intros [[H0 H1] H2]. split; [exact H0|split; [exact H1|]].
    intros b Hb. apply Z.leb_le, H2, Hb.
  - intros [H0 [H1 H2]]. split; [split; assumption|].
    intros b Hb. apply Z.leb_le, H2, Hb.
Qed.

Lemma removed_count_pos l id :
  (0 <? Z.of_nat (List.length l - List.length (filter (fun b => negb (booking_id b =? id)) l)))
  = existsb (fun b => booking_id b =? id) l.
Proof.
  induction l as [|b r IH]; [reflexivity|].
  cbn [filter existsb]. destruct (booking_id b =? id); cbn [negb orb List.length].
  - apply Z.ltb_lt. pose proof (filter_length_le (fun b => negb (booking_id b =? id)) r). lia.
  - exact IH.
Qed.

(** [cancel_booking] with a working [DELETE]: the result says whether a
    row had the id, and exactly the rows with that id are removed. *)
Lemma cancel_booking_eval fs t id :
  delete_fails fs = None -> 0 < id ->
  cancel_booking fs t id =
    Ok (existsb (fun b => booking_id b =? id) (rows t),
        mkTable (filter (fun b => negb (booking_id b =? id)) (rows t)) (sqlite_seq t)).
Proof.
  intros Hd Hid. unfold cancel_booking.
  replace (id <=? 0) with false by (symmetry; apply Z.leb_gt; lia).
  unfold delete_booking, raise_if. rewrite Hd. cbn [bind].
  rewrite removed_count_pos.
  destruct (existsb _ _); reflexivity.
Qed.

Lemma is_slot_available_overflow fs t date time dur d m :
  valid_duration dur = true -> parse_date date = Some d -> parse_time time = Some m ->
  MAX_DT <= combine_datetime d m + dur ->
  is_slot_available fs t date time dur = Raise (OverflowError "date value out of range").
Proof.
  intros Hv Hd Hm Hr. unfold is_slot_available, is_slot_available_v.
  rewrite (validate_duration_ok _ Hv). unfold bind at 1.
  unfold parse_date_v, parse_time_v. rewrite Hd, Hm. cbn [bind]. unfold dt_add.
  replace ((0 <=? combine_datetime d m + dur) && (combine_datetime d m + dur <? MAX_DT))
    with false by (symmetry; apply andb_false_intro2; apply Z.ltb_ge; lia).
  reflexivity.
Qed.

(** [is_slot_available] reads the table only through the overlap query. *)
Lemma is_slot_available_query_ext fs t1 t2 date time dur :
  (forall hi, existsb (overlap_query date time hi) (rows t1)
              = existsb (overlap_query date time hi) (rows t2)) ->
  is_slot_available fs t1 date time dur = is_slot_available fs t2 date time dur.
Proof.
  intros Hq.
  destruct (valid_duration dur) eqn:Hv.
  2:{ unfold is_slot_available, is_slot_available_v, validate_duration.
      unfold valid_duration in Hv.
      destruct ((dur <=? 0) || negb (dur mod 15 =? 0)) eqn:E; [reflexivity|].
      exfalso. apply orb_false_elim in E as [E1 E2]. apply Z.leb_gt in E1.
      apply negb_false_iff in E2. rewrite E2, andb_true_r in Hv.
      apply Z.ltb_ge in Hv. lia. }
  destruct (parse_date date) as [d|] eqn:Hd.
  2:{ rewrite !is_slot_available_unparsable by auto. reflexivity. }
  destruct (parse_time time) as [m|] eqn:Hm.
  2:{ rewrite !is_slot_available_unparsable by auto. reflexivity. }
  destruct (Z.ltb_spec (combine_datetime d m + dur) MAX_DT) as [Hr|Hr].
  - rewrite !(is_slot_available_eval _ _ date time dur d m Hv Hd Hm Hr).
    destruct (select_fails fs); [reflexivity|]. f_equal. f_equal. apply Hq.
  - rewrite !(is_slot_available_overflow _ _ date time dur d m Hv Hd Hm Hr). reflexivity.
Qed.

Lemma is_slot_available_rows fs t1 t2 date time dur :
  rows t1 = rows t2 ->
  is_slot_available fs t1 date time dur = is_slot_available fs t2 date time dur.
Proof. intros H. apply is_slot_available_query_ext. intros hi. rewrite H. reflexivity. Qed.

(** The id discipline of AUTOINCREMENT: on a store whose ids are
    positive, increasing in row order and not above the counter, a
    successful [book_slot] keeps that shape and uses counter + 1, above
    every stored id; a [cancel_booking] keeps the shape and the counter
    and only removes rows. *)
Theorem book_cancel_keep_ids fs t :
  ids_ok t = true ->
  (forall date time dur c s id t',
     book_slot fs t date time dur c s = Ok (id, t') ->
     ids_ok t' = true /\ id = sqlite_seq t + 1 /\ sqlite_seq t' = id /\
     (forall b, In b (rows t) -> booking_id b < id)) /\
  (forall id r t',
     cancel_booking fs t id = Ok (r, t') ->
     ids_ok t' = true /\ sqlite_seq t' = sqlite_seq t /\ incl (rows t') (rows t)).
Proof.
  intros Hok. pose proof Hok as Hok'. apply ids_ok_spec in Hok' as [Hs [Hinc Hle]]. split.
  - intros date time dur c s id t' Hb.
    destruct (book_slot_ok_inv _ _ _ _ _ _ _ _ _ Hb)
      as (d & m & _ & _ & _ & _ & _ & _ & -> & ->).
    rewrite Forall_forall in Hle.
    split; [|split; [reflexivity | split; [reflexivity|]]].
    + apply ids_ok_spec. cbn [rows sqlite_seq booking_id]. split; [lia|split].
      * apply (ids_increasing_snoc 0 _ _ (sqlite_seq t)); auto; [apply Forall_forall, Hle|].
        cbn [booking_id]. lia.
      * apply Forall_app. split.
        -- apply Forall_forall. intros b Hb'. specialize (Hle b Hb'). lia.
        -- constructor; [cbn [booking_id]; lia | constructor].
    + intros b Hb'. specialize (Hle b Hb'). lia.
  - intros id r t' Hc. unfold cancel_booking in Hc.
    assert (Hself : ids_ok t' = true /\ sqlite_seq t' = sqlite_seq t /\ incl (rows t') (rows t)
                    \/ t' = t).
    { destruct (id <=? 0); [injection Hc as _ <-; right; reflexivity|].
      unfold delete_booking, raise_if in Hc.
      destruct (delete_fails fs); cbn [bind try_with] in Hc;
        [injection Hc as _ <-; right; reflexivity|].
      left. rewrite removed_count_pos in Hc.
      assert (Ht' : t' = mkTable (filter (fun b => negb (booking_id b =? id)) (rows t))
                                 (sqlite_seq t))
        by (destruct (existsb _ _); injection Hc as _ <-; reflexivity).
      subst t'. cbn [rows sqlite_seq]. split; [|split; [reflexivity|]].
      - apply ids_ok_spec. cbn [rows sqlite_seq]. split; [exact Hs|split].
        + apply ids_increasing_filter, Hinc.
        + rewrite Forall_forall in *. intros b Hb. apply filter_In in Hb as [Hb _]. auto.
      - intros b Hb. apply filter_In in Hb as [Hb _]. exact Hb. }
    destruct Hself as [H | ->]; [exact H|]. split; [exact Hok|split; [reflexivity|apply incl_refl]].
Qed.

(** Witness: the table holding the 10:00-11:00 booking of id 1. *)
Lemma book_cancel_keep_ids_witness :
  ids_ok (mkTable [] 1) = true /\ sqlite_seq (mkTable [] 1) = 1 /\
  incl (rows (mkTable [] 1)) [mkBooking 1 "2025-04-01" "10:00" "11:00" 60 "client123" "Haircut"].
Proof.
  apply (proj2 (book_cancel_keep_ids healthy
                  (mkTable [mkBooking 1 "2025-04-01" "10:00" "11:00" 60 "client123" "Haircut"] 1)
                  ltac:(vm_compute; reflexivity)) 1 true (mkTable [] 1)).
  vm_compute. reflexivity.
Defined.

(** [cancel_booking] with a working [DELETE]: a non-positive id gives
    [False] and no change; a positive id that fits a 64-bit SQLite
    INTEGER removes exactly the rows with that id and reports whether
    there was one, so an unknown id gives [False] and no change. *)
Theorem cancel_booking_removes_id fs t id :
  delete_fails fs = None ->
  (id <= 0 -> cancel_booking fs t id = Ok (false, t)) /\
  (0 < id <= sqlite_max_int ->
   cancel_booking fs t id =
     Ok (existsb (fun b => booking_id b =? id) (rows t),
         mkTable (filter (fun b => negb (booking_id b =? id)) (rows t)) (sqlite_seq t))) /\
  (0 < id <= sqlite_max_int -> Forall (fun b => booking_id b <> id) (rows t) ->
   cancel_booking fs t id = Ok (false, t)).
Proof.
  intros Hd. split; [|split].
  - intros Hid. unfold cancel_booking.
    replace (id <=? 0) with true by (symmetry; apply Z.leb_le; lia). reflexivity.
  - intros Hid. apply cancel_booking_eval; [assumption | lia].
  - intros Hid Hno. rewrite (cancel_booking_eval fs t id Hd ltac:(lia)).
    assert (Hf : filter (fun b => negb (booking_id b =? id)) (rows t) = rows t).
    { apply forallb_filter_id. apply forallb_forall. intros b Hb.
      rewrite Forall_forall in Hno. specialize (Hno b Hb).
      apply negb_true_iff, Z.eqb_neq, Hno. }
    assert (He : existsb (fun b => booking_id b =? id) (rows t) = false).
    { apply not_true_iff_false. intros H. apply existsb_exists in H as (b & Hb & E).
      rewrite Forall_forall in Hno. apply (Hno b Hb), Z.eqb_eq, E. }
    rewrite Hf, He. destruct t. reflexivity.
Qed.

(** Witness: cancelling id 1 and then id 1 again. *)
Lemma cancel_booking_removes_id_witness :
  cancel_booking healthy
    (mkTable [mkBooking 1 "2025-04-01" "10:00" "11:00" 60 "client123" "Haircut"] 1) 1 =
    Ok (true, mkTable [] 1) /\
  cancel_booking healthy (mkTable [] 1) 1 = Ok (false, mkTable [] 1).
Proof.
  split.
  - rewrite (proj1 (proj2 (cancel_booking_removes_id healthy _ 1 eq_refl))
               ltac:(unfold sqlite_max_int; lia)).
    reflexivity.
  - apply (proj2 (proj2 (cancel_booking_removes_id healthy (mkTable [] 1) 1 eq_refl)));
      [unfold sqlite_max_int; lia | constructor].
Defined.

(** Booking and then cancelling the id [book_slot] returned gives
    [True] and restores the rows (only the counter has moved on); every
    availability answer is then as before the booking. *)
Theorem book_then_cancel_restores fs t date time dur c s id t' :
  ids_ok t = true -> delete_fails fs = None ->
  book_slot fs t date time dur c s = Ok (id, t') ->
  cancel_booking fs t' id = Ok (true, mkTable (rows t) id) /\
  (forall date' time' dur',
     is_slot_available fs (mkTable (rows t) id) date' time' dur'
     = is_slot_available fs t date' time' dur').
Proof.
  intros Hok Hd Hb.
  destruct (book_slot_ok_inv _ _ _ _ _ _ _ _ _ Hb)
    as (d & m & _ & _ & _ & _ & _ & _ & Hid & ->).
  apply ids_ok_spec in Hok as [Hs [_ Hle]]. rewrite Forall_forall in Hle.
  split.
  - rewrite cancel_booking_eval by (auto; lia). cbn [rows sqlite_seq].
    rewrite existsb_app, filter_app. cbn [existsb filter booking_id].
    rewrite Z.eqb_refl. cbn [negb orb]. rewrite orb_true_r, app_nil_r.
    rewrite forallb_filter_id; [reflexivity|].
    apply forallb_forall. intros b Hb'. specialize (Hle b Hb').
    apply negb_true_iff, Z.eqb_neq. lia.
  - intros. apply is_slot_available_rows. reflexivity.
Qed.

(** Witness: book 2025-04-01 10:00 for 60 minutes on the empty table. *)
Lemma book_then_cancel_restores_witness :
  cancel_booking healthy
    (mkTable [mkBooking 1 "2025-04-01" "10:00" "11:00" 60 "client123" "Haircut"] 1) 1
    = Ok (true, mkTable [] 1).
Proof.
  apply (proj1 (book_then_cancel_restores healthy empty_table "2025-04-01" "10:00" 60
                  "client123" "Haircut" 1
                  (mkTable [mkBooking 1 "2025-04-01" "10:00" "11:00" 60 "client123" "Haircut"] 1)
                  eq_refl eq_refl ltac:(vm_compute; reflexivity))).
Defined.

(** [is_slot_available] on a date reads only that date's rows: its
    answer is the same on the store restricted to them. *)
Theorem is_slot_available_same_date_only fs t date time dur :
  is_slot_available fs t date time dur =
  is_slot_available fs (mkTable (filter (fun b => String.eqb (bdate b) date) (rows t))
                                (sqlite_seq t)) date time dur.
Proof.
  apply is_slot_available_query_ext. intros hi. cbn [rows].
  induction (rows t) as [|b r IH]; [reflexivity|].
  cbn [existsb filter].
  destruct (String.eqb (bdate b) date) eqn:E; cbn [existsb].
  - rewrite IH. reflexivity.
  - replace (overlap_query date time hi b) with false
      by (unfold overlap_query; rewrite E; reflexivity).
    exact IH.
Qed.

(** Availability is antitone in the rows: fewer rows never make an
    available slot unavailable. *)
Lemma is_slot_available_incl fs t1 t2 date time dur :
  incl (rows t1) (rows t2) ->
  is_slot_available fs t2 date time dur = Ok true ->
  is_slot_available fs t1 date time dur = Ok true.
Proof.
  intros Hi H.
  destruct (is_slot_available_true_inv _ _ _ _ _ H) as (d & m & Hv & Hd & Hm & Hr & Hf).
  rewrite (is_slot_available_eval fs t2 date time dur d m Hv Hd Hm Hr), Hf in H.
  rewrite (is_slot_available_eval fs t1 date time dur d m Hv Hd Hm Hr), Hf.
  injection H as H. apply negb_true_iff in H. f_equal. apply negb_true_iff.
  apply not_true_iff_false. intros H1. apply existsb_exists in H1 as (b & Hb & E).
  assert (H2 : existsb (fun b => String.eqb (bdate b) date && text_lt time (end_time b)
             && text_lt (start_time b) (format_time (dt_time (combine_datetime d m + dur))))
             (rows t2) = true) by (apply existsb_exists; exists b; auto).
  congruence.
Qed.

(** Cancelling never makes an available slot unavailable, and
    booking never makes an unavailable slot available. *)
Theorem availability_monotone fs t date time dur :
  (forall id r t', cancel_booking fs t id = Ok (r, t') ->
     is_slot_available fs t date time dur = Ok true ->
     is_slot_available fs t' date time dur = Ok true) /\
  (forall date' time' dur' c s id t', book_slot fs t date' time' dur' c s = Ok (id, t') ->
     is_slot_available fs t' date time dur = Ok true ->
     is_slot_available fs t date time dur = Ok true).
Proof.
  split.
  - intros id r t' Hc. apply is_slot_available_incl.
    unfold cancel_booking in Hc.
    destruct (id <=? 0); [injection Hc as _ <-; apply incl_refl|].
    unfold delete_booking, raise_if in Hc.
    destruct (delete_fails fs); cbn [bind try_with] in Hc;
      [injection Hc as _ <-; apply incl_refl|].
    rewrite removed_count_pos in Hc.
    assert (Ht' : t' = mkTable (filter (fun b => negb (booking_id b =? id)) (rows t))
                               (sqlite_seq t))
      by (destruct (existsb _ _); injection Hc as _ <-; reflexivity).
    subst t'. intros b Hb. apply filter_In in Hb as [Hb _]. exact Hb.
  - intros date' time' dur' c s id t' Hb. apply is_slot_available_incl.
    destruct (book_slot_ok_inv _ _ _ _ _ _ _ _ _ Hb)
      as (d & m & _ & _ & _ & _ & _ & _ & _ & ->).
    cbn [rows]. apply incl_appl, incl_refl.
Qed.

(** Witness: the 12:00 slot stays free after cancelling booking 1. *)
Lemma availability_monotone_witness :
  is_slot_available healthy (mkTable [] 1) "2025-04-01" "12:00" 30 = Ok true.
Proof.
  apply (proj1 (availability_monotone healthy
                  (mkTable [mkBooking 1 "2025-04-01" "10:00" "11:00" 60 "client123" "Haircut"] 1)
                  "2025-04-01" "12:00" 30) 1 true (mkTable [] 1));
    vm_compute; reflexivity.
Defined.

(* ------------------------------------------------------------------ *)
(** ** The search of [next_available_slot] *)

Lemma dt_time_of q c : q * 1440 <= c < q * 1440 + 1440 -> dt_time c = c - q * 1440.
Proof.
  intros H. unfold dt_time.
  replace c with ((c - q * 1440) + q * 1440) at 1 by lia.
  rewrite Z.mod_add by lia. apply Z.mod_small. lia.
Qed.

Lemma aligned_step a b : a mod 15 = 0 -> b mod 15 = 0 -> a < b -> a + 15 <= b.
Proof.
  intros Ha Hb H.
  pose proof (Z.div_mod a 15 ltac:(lia)). pose proof (Z.div_mod b 15 ltac:(lia)).
  rewrite Ha in *. rewrite Hb in *. lia.
Qed.

Lemma nine_aligned D : combine_datetime D (9 * 60) mod 15 = 0.
Proof.
  unfold combine_datetime.
  replace ((D - 1) * 1440 + 9 * 60) with (((D - 1) * 96 + 36) * 15) by lia.
  apply Z_mod_mult.
Qed.

(** What the candidate walk returns: a candidate at or after its start,
    on a 15-minute mark inside 09:00-17:00, that [is_slot_available]
    confirms, and every earlier such candidate was refused. *)
Lemma scan_found fs t dur lim fuel :
  forall cur ds ts,
  0 <= cur -> cur mod 15 = 0 ->
  scan fs t fuel dur lim cur = Ok (Some (ds, ts)) ->
  exists c, cur <= c < lim /\ c mod 15 = 0 /\ 9 * 60 <= dt_time c < 17 * 60 /\
    ds = format_date (dt_date c) /\ ts = format_time (dt_time c) /\
    is_slot_available fs t ds ts dur = Ok true /\
    (forall c', cur <= c' < c -> c' mod 15 = 0 -> 9 * 60 <= dt_time c' < 17 * 60 ->
       is_slot_available fs t (format_date (dt_date c')) (format_time (dt_time c')) dur
       = Ok false).
Proof.
  induction fuel as [|fuel IH]; intros cur ds ts H0 Ha H; [discriminate|].
  cbn [scan] in H.
  destruct (Z.ltb_spec cur lim) as [Hl|Hl]; [|discriminate].
  pose proof (Z.div_mod cur 1440 ltac:(lia)) as Ecur.
  pose proof (Z.mod_pos_bound cur 1440 ltac:(lia)) as Btod.
  assert (Ht : dt_time cur = cur mod 1440) by reflexivity.
  assert (HD : dt_date cur = cur / 1440 + 1) by reflexivity.
  assert (Hq : 0 <= cur / 1440) by (apply Z.div_pos; lia).
  destruct (Z.leb_spec (9 * 60) (dt_time cur)) as [E1|E1].
  - destruct (Z.ltb_spec (dt_time cur) (17 * 60)) as [E2|E2]; cbn [andb negb] in H.
    + (* a candidate inside business hours *)
      destruct (is_slot_available fs t (format_date (dt_date cur)) (format_time (dt_time cur)) dur)
        as [[]|e] eqn:Hav; cbn [bind] in H; [| |discriminate].
      * injection H as <- <-. exists cur. repeat split; auto; try lia;
          intros c' Hc'; lia.
      * unfold dt_add in H.
        destruct ((0 <=? cur + 15) && (cur + 15 <? MAX_DT)); cbn [bind] in H; [|discriminate].
        assert (Ha' : (cur + 15) mod 15 = 0).
        { rewrite Z.add_mod by lia. rewrite Ha. reflexivity. }
        destruct (IH (cur + 15) ds ts ltac:(lia) Ha' H)
          as (c & Hc & Hca & Hch & Hds & Hts & Hok & Hmin).
        exists c. repeat split; auto; try lia.
        intros c' Hc' Hc'a Hc'h.
        destruct (Z.eq_dec c' cur) as [->|Hne]; [exact Hav|].
        pose proof (aligned_step cur c' Ha Hc'a ltac:(lia)).
        apply Hmin; auto; lia.
    + (* at or after 17:00: 09:00 of the next day *)
      replace (dt_time cur <? 9 * 60) with false in H by (symmetry; apply Z.ltb_ge; lia).
      unfold date_add_days in H.
      destruct ((1 <=? dt_date cur + 1) && (dt_date cur + 1 <=? MAXORDINAL));
        cbn [bind] in H; [|discriminate].
      pose proof (nine_aligned (dt_date cur + 1)) as Hna.
      assert (Hn : combine_datetime (dt_date cur + 1) (9 * 60) = (cur / 1440 + 1) * 1440 + 540)
        by (unfold combine_datetime; lia).
      destruct (IH (combine_datetime (dt_date cur + 1) (9 * 60)) ds ts ltac:(lia) Hna H)
        as (c & Hc & Hca & Hch & Hds & Hts & Hok & Hmin).
      exists c. repeat split; auto; try lia.
      intros c' Hc' Hc'a Hc'h.
      destruct (Z.ltb_spec c' ((cur / 1440 + 1) * 1440 + 540)) as [Hlt|Hge].
      * exfalso.
        destruct (Z.ltb_spec c' ((cur / 1440) * 1440 + 1440)) as [Hlt'|Hge'].
        -- rewrite (dt_time_of (cur / 1440) c') in Hc'h by lia. lia.
        -- rewrite (dt_time_of (cur / 1440 + 1) c') in Hc'h by lia. lia.
      * apply Hmin; auto. lia.
  - (* before 09:00: 09:00 of the same day *)
    cbn [andb negb] in H.
    replace (dt_time cur <? 9 * 60) with true in H by (symmetry; apply Z.ltb_lt; lia).
    pose proof (nine_aligned (dt_date cur)) as Hna.
    assert (Hn : combine_datetime (dt_date cur) (9 * 60) = (cur / 1440) * 1440 + 540)
      by (unfold combine_datetime; lia).
    destruct (IH (combine_datetime (dt_date cur) (9 * 60)) ds ts ltac:(lia) Hna H)
      as (c & Hc & Hca & Hch & Hds & Hts & Hok & Hmin).
    exists c. repeat split; auto; try lia.
    intros c' Hc' Hc'a Hc'h.
    destruct (Z.ltb_spec c' ((cur / 1440) * 1440 + 540)) as [Hlt|Hge].
    + exfalso. rewrite (dt_time_of (cur / 1440) c') in Hc'h by lia. lia.
    + apply Hmin; auto. lia.
Qed.

(** Any returned slot comes out of the candidate walk started at the
    first 15-minute mark at or after [after_date@after_time]. *)
Lemma next_available_slot_found fs t date time dur ds ts :
  next_available_slot fs t (date, time) dur = Ok (Some (ds, ts)) ->
  exists d m c,
    valid_duration dur = true /\ parse_date date = Some d /\ parse_time time = Some m /\
    combine_datetime d m <= c
      < combine_datetime d m + minute_offset (combine_datetime d m) + 365 * 1440 /\
    c mod 15 = 0 /\ 9 * 60 <= dt_time c < 17 * 60 /\
    ds = format_date (dt_date c) /\ ts = format_time (dt_time c) /\
    is_slot_available fs t ds ts dur = Ok true /\
    (forall c', combine_datetime d m <= c' < c -> c' mod 15 = 0 ->
       9 * 60 <= dt_time c' < 17 * 60 ->
       is_slot_available fs t (format_date (dt_date c')) (format_time (dt_time c')) dur
       = Ok false).
Proof.
  intros H. unfold next_available_slot, next_available_slot_v in H. cbn [fst snd] in H.
  destruct (validate_duration dur) as [[]|e] eqn:Hv; cbn [bind] in H; [|discriminate].
  apply validate_duration_inv in Hv.
  match type of H with try_with ?b _ = _ => destruct b as [x|e] eqn:Hb end;
    cbn [try_with] in H.
  2:{ destruct e; cbn in H; try discriminate. }
  injection H as ->.
  unfold parse_date_v, parse_time_v in Hb.
  destruct (parse_date date) as [d|] eqn:Hd; cbn [bind] in Hb; [|discriminate].
  destruct (parse_time time) as [m|] eqn:Hm; cbn [bind] in Hb; [|discriminate].
  pose proof (parse_date_range _ _ Hd). pose proof (parse_time_range _ _ Hm).
  set (st := combine_datetime d m) in *.
  assert (Hst : 0 <= st) by (unfold st, combine_datetime; lia).
  pose proof (minute_offset_rounds st Hst) as [Hal Hoff].
  unfold dt_add in Hb.
  destruct ((0 <=? st + minute_offset st) && (st + minute_offset st <? MAX_DT));
    cbn [bind] in Hb; [|discriminate].
  destruct ((0 <=? st + minute_offset st + 365 * 1440)
            && (st + minute_offset st + 365 * 1440 <? MAX_DT));
    cbn [bind] in Hb; [|discriminate].
  apply scan_found in Hb; [|lia|exact Hal].
  destruct Hb as (c & Hc & Hca & Hch & Hds & Hts & Hok & Hmin).
  assert (Hmin' : forall c', st <= c' < c -> c' mod 15 = 0 ->
            9 * 60 <= dt_time c' < 17 * 60 ->
            is_slot_available fs t (format_date (dt_date c')) (format_time (dt_time c')) dur
            = Ok false).
  { intros c' Hc' Hc'a Hc'h. apply Hmin; auto.
    split; [|lia].
    destruct (Z.le_gt_cases (st + minute_offset st) c') as [Hle|Hgt]; [exact Hle|].
    pose proof (aligned_step c' (st + minute_offset st) Hc'a Hal Hgt). lia. }
  exists d, m, c. fold st. repeat split; auto; lia.
Qed.

(* ------------------------------------------------------------------ *)
(** ** When [book_slot] succeeds *)

(** An available slot is booked under the next id, provided the write
    succeeds and the client and service names are short enough. *)
Lemma book_slot_when_available fs t date time dur c s :
  is_slot_available fs t date time dur = Ok true -> insert_fails fs = None ->
  (String.length c <= 32)%nat -> (String.length s <= 100)%nat ->
  exists d m, parse_date date = Some d /\ parse_time time = Some m /\
    book_slot fs t date time dur c s =
      Ok (sqlite_seq t + 1,
          mkTable (rows t ++ [mkBooking (sqlite_seq t + 1) date time
                                (format_time (dt_time (combine_datetime d m + dur))) dur c s])
                  (sqlite_seq t + 1)).
Proof.
  intros Ha Hi Hc Hs.
  destruct (is_slot_available_true_inv _ _ _ _ _ Ha) as (d & m & Hv & Hd & Hm & Hr & _).
  pose proof (parse_date_range _ _ Hd). pose proof (parse_time_range _ _ Hm).
  pose proof (valid_duration_pos _ Hv).
  exists d, m. split; [exact Hd|]. split; [exact Hm|].
  unfold book_slot, book_slot_v. rewrite (validate_duration_ok _ Hv). cbn [bind py_len].
  replace (32 <? Z.of_nat (String.length c)) with false by (symmetry; apply Z.ltb_ge; lia).
  cbn [bind].
  replace (100 <? Z.of_nat (String.length s)) with false by (symmetry; apply Z.ltb_ge; lia).
  fold (is_slot_available fs t date time dur). rewrite Ha. cbn [bind negb].
  unfold parse_date_v, parse_time_v. rewrite Hd, Hm. cbn [bind]. unfold dt_add.
  replace ((0 <=? combine_datetime d m + dur) && (combine_datetime d m + dur <? MAX_DT))
    with true
    by (unfold combine_datetime in *; symmetry; apply andb_true_intro;
        split; [apply Z.leb_le | apply Z.ltb_lt]; lia).
  unfold insert_booking, raise_if. rewrite Hi. reflexivity.
Qed.

(** The names' lengths are checked before anything is written. *)
Lemma book_slot_ok_lengths fs t date time dur c s id t' :
  book_slot fs t date time dur c s = Ok (id, t') ->
  (String.length c <= 32)%nat /\ (String.length s <= 100)%nat.
Proof.
  unfold book_slot, book_slot_v.
  destruct (validate_duration dur) as [[]|e]; cbn [bind]; [|discriminate].
  cbn [py_len bind].
  destruct (Z.ltb_spec 32 (Z.of_nat (String.length c))); [discriminate|]. cbn [bind].
  destruct (Z.ltb_spec 100 (Z.of_nat (String.length s))); [discriminate|].
  intros _. split; lia.
Qed.

(** [book_slot] succeeds exactly when the slot is available, the client
    id has at most 32 characters, the service name at most 100, and the
    write succeeds; the booking then gets the next id. *)
Theorem book_slot_succeeds_iff fs t date time dur c s :
  (exists id t', book_slot fs t date time dur c s = Ok (id, t')) <->
  is_slot_available fs t date time dur = Ok true /\ insert_fails fs = None /\
  (String.length c <= 32)%nat /\ (String.length s <= 100)%nat.
Proof.
  split.
  - intros (id & t' & H).
    pose proof (book_slot_ok_lengths _ _ _ _ _ _ _ _ _ H) as [Hc Hs].
    destruct (book_slot_ok_inv _ _ _ _ _ _ _ _ _ H) as (d & m & _ & _ & _ & Ha & Hi & _).
    auto.
  - intros (Ha & Hi & Hc & Hs).
    destruct (book_slot_when_available _ _ _ _ _ _ _ Ha Hi Hc Hs) as (d & m & _ & _ & H).
    eauto.
Qed.

(* ------------------------------------------------------------------ *)
(** ** What [next_available_slot] returns *)

(** A slot returned by [next_available_slot] lies on a 15-minute mark
    inside 09:00-17:00, at or after the requested moment and before the
    one-year limit counted from the rounded start; [is_slot_available]
    confirms it, and refuses every earlier such candidate from the
    requested moment on. *)
Theorem next_available_slot_sound fs t date time dur ds ts :
  next_available_slot fs t (date, time) dur = Ok (Some (ds, ts)) ->
  exists d m c,
    parse_date date = Some d /\ parse_time time = Some m /\
    combine_datetime d m <= c
      < combine_datetime d m + minute_offset (combine_datetime d m) + 365 * 1440 /\
    c mod 15 = 0 /\ 9 * 60 <= dt_time c < 17 * 60 /\
    ds = format_date (dt_date c) /\ ts = format_time (dt_time c) /\
    is_slot_available fs t ds ts dur = Ok true /\
    (forall c', combine_datetime d m <= c' < c -> c' mod 15 = 0 ->
       9 * 60 <= dt_time c' < 17 * 60 ->
       is_slot_available fs t (format_date (dt_date c')) (format_time (dt_time c')) dur
       = Ok false).
Proof.
  intros H.
  destruct (next_available_slot_found _ _ _ _ _ _ _ H)
    as (d & m & c & _ & Hd & Hm & Hc & Hca & Hch & Hds & Hts & Hok & Hmin).
  exists d, m, c. auto 10.
Qed.

(** Witness: after a 10:00-11:00 booking, the search from 10:05 for 30
    minutes returns 11:00, which is confirmed available. *)
Lemma next_available_slot_sound_witness :
  next_available_slot healthy
    (mkTable [mkBooking 1 "2025-04-01" "10:00" "11:00" 60 "client123" "Haircut"] 1)
    ("2025-04-01", "10:05") 30 = Ok (Some ("2025-04-01", "11:00")) /\
  is_slot_available healthy
    (mkTable [mkBooking 1 "2025-04-01" "10:00" "11:00" 60 "client123" "Haircut"] 1)
    "2025-04-01" "11:00" 30 = Ok true.
Proof.
  assert (H : next_available_slot healthy
    (mkTable [mkBooking 1 "2025-04-01" "10:00" "11:00" 60 "client123" "Haircut"] 1)
    ("2025-04-01", "10:05") 30 = Ok (Some ("2025-04-01", "11:00")))
    by (vm_compute; reflexivity).
  split; [exact H|].
  destruct (next_available_slot_sound _ _ _ _ _ _ _ H)
    as (d & m & c & _ & _ & _ & _ & _ & _ & _ & Hok & _).
  exact Hok.
Defined.

(** The returned slot can be booked at once (the composition in
    [simple_agent.process_booking_request]): with a working write and
    short enough names, [book_slot] on the returned date and time
    stores the booking under the next id. *)
Theorem next_available_slot_then_book fs t date time dur c s ds ts :
  next_available_slot fs t (date, time) dur = Ok (Some (ds, ts)) ->
  insert_fails fs = None ->
  (String.length c <= 32)%nat -> (String.length s <= 100)%nat ->
  exists e,
    book_slot fs t ds ts dur c s =
      Ok (sqlite_seq t + 1,
          mkTable (rows t ++ [mkBooking (sqlite_seq t + 1) ds ts e dur c s])
                  (sqlite_seq t + 1)).
Proof.
  intros H Hi Hc Hs.
  destruct (next_available_slot_found _ _ _ _ _ _ _ H)
    as (d & m & cand & _ & _ & _ & _ & _ & _ & _ & _ & Hok & _).
  destruct (book_slot_when_available _ _ _ _ _ _ _ Hok Hi Hc Hs) as (d' & m' & _ & _ & Hb).
  eexists. exact Hb.
Qed.

(** Witness: on an empty calendar the search from 2025-04-01 08:00
    finds 09:00, which is then booked as booking 1. *)
Lemma next_available_slot_then_book_witness :
  exists e,
    book_slot healthy empty_table "2025-04-01" "09:00" 30 "client123" "Haircut" =
      Ok (1, mkTable [mkBooking 1 "2025-04-01" "09:00" e 30 "client123" "Haircut"] 1).
Proof.
  apply (next_available_slot_then_book healthy empty_table "2025-04-01" "08:00" 30
           "client123" "Haircut" "2025-04-01" "09:00");
    [vm_compute; reflexivity | reflexivity | cbn; lia | cbn; lia].
Defined.

(* ------------------------------------------------------------------ *)
(** ** The searches when the storage layer fails *)

Lemma filter_available_select_fails fs t date dur l r :
  select_fails fs <> None -> filter_available fs t date dur l = Ok r -> r = [].
Proof.
  intros Hs. revert r. induction l as [|c l IH]; intros r; cbn [filter_available].
  - intros H. injection H as <-. reflexivity.
  - destruct (is_slot_available fs t date c dur) as [a|e] eqn:Ha; cbn [bind];
      [|discriminate].
    destruct (filter_available fs t date dur l) as [r'|e] eqn:Hf; cbn [bind];
      [|discriminate].
    intros H. injection H as <-.
    destruct a.
    + destruct (is_slot_available_true_inv _ _ _ _ _ Ha) as (? & ? & _ & _ & _ & _ & Hn).
      contradiction.
    + apply IH. reflexivity.
Qed.

(** [slots_available_on_day] for a valid duration is the list of the
    half-hour candidates that [is_slot_available] accepts. *)
Lemma slots_available_on_day_eq fs t date dur :
  valid_duration dur = true ->
  slots_available_on_day fs t date dur = filter_available fs t date dur day_candidates.
Proof.
  intros Hv.
  unfold slots_available_on_day, slots_available_on_day_v.
  rewrite (validate_duration_ok _ Hv). cbn [bind]. unfold parse_date_v.
  destruct (parse_date date) as [d|] eqn:Hd.
  - cbn [bind]. rewrite (day_scan_filter fs t date d dur 16) by (auto; lia).
    unfold day_candidates.
    destruct (filter_available fs t date dur (map format_time (half_hours (9 * 60) 16)))
      as [r|e] eqn:Hf; cbn [bind try_with]; [reflexivity|].
    destruct (filter_available_raise _ _ _ _ _ _ Hf) as [c Hc].
    pose proof (is_slot_available_raise_kind _ _ _ _ _ _ Hv Hc) as Hk.
    destruct e; [contradiction | reflexivity | reflexivity | reflexivity | contradiction].
  - cbn [bind try_with]. unfold day_candidates.
    generalize (map format_time (half_hours (9 * 60) 16)).
    intros l. induction l as [|c l IHl]; [reflexivity|]. cbn [filter_available].
    rewrite is_slot_available_unparsable by auto. cbn [bind]. rewrite <- IHl. reflexivity.
Qed.

(** When the SELECT fails, neither search offers a slot:
    [slots_available_on_day] returns no slot (or raises) and
    [next_available_slot] returns no slot (or raises). *)
Theorem searches_fail_closed fs t date time dur :
  select_fails fs <> None ->
  (forall x l, slots_available_on_day fs t date dur <> Ok (x :: l)) /\
  (forall p, next_available_slot fs t (date, time) dur <> Ok (Some p)).
Proof.
  intros Hs. split.
  - intros x l H.
    destruct (validate_duration dur) as [[]|e] eqn:Hv.
    + apply validate_duration_inv in Hv.
      rewrite (slots_available_on_day_eq _ _ _ _ Hv) in H.
      apply filter_available_select_fails in H; [discriminate | exact Hs].
    + unfold slots_available_on_day, slots_available_on_day_v in H.
      rewrite Hv in H. discriminate.
  - intros [ds ts] H.
    destruct (next_available_slot_found _ _ _ _ _ _ _ H)
      as (d & m & c & _ & _ & _ & _ & _ & _ & _ & _ & Hok & _).
    destruct (is_slot_available_true_inv _ _ _ _ _ Hok) as (? & ? & _ & _ & _ & _ & Hn).
    contradiction.
Qed.

(** Witness: with every SELECT failing, 2025-04-01 lists no slot and the
    search from 10:00 finds none. *)
Lemma searches_fail_closed_witness :
  slots_available_on_day (mkFaults (Some "database is locked") None None) empty_table
    "2025-04-01" 30 <> Ok ["09:00"].
Proof.
  apply (proj1 (searches_fail_closed (mkFaults (Some "database is locked") None None)
                  empty_table "2025-04-01" "10:00" 30 ltac:(discriminate))).
Defined.

(* ------------------------------------------------------------------ *)
(** ** The tool adapter: a found slot is reported available *)

Lemma next_available_slot_v_strings fs t a b dur p :
  next_available_slot_v fs t a b dur = Ok (Some p) ->
  exists sa sb, a = PStr sa /\ b = PStr sb.
Proof.
  unfold next_available_slot_v.
  destruct (validate_duration dur) as [[]|e]; cbn [bind]; [|discriminate].
  destruct a as [| | |sa]; cbn [parse_date_v bind try_with]; try discriminate.
  destruct (parse_date sa); cbn [bind try_with]; [|discriminate].
  destruct b as [| | |sb]; cbn [parse_time_v bind try_with]; try discriminate.
  intros _. eauto.
Qed.

Lemma parse_date_nonempty s d : parse_date s = Some d -> String.eqb s "" = false.
Proof. destruct s; [discriminate | reflexivity]. Qed.

Lemma parse_time_nonempty s m : parse_time s = Some m -> String.eqb s "" = false.
Proof. destruct s; [discriminate | reflexivity]. Qed.

(** A slot that [next_available_slot_tool] reports is reported available
    by [is_slot_available_tool] for the same date, time and duration
    argument, on the same store. *)
Theorem next_slot_tool_confirmed fs t args d tm :
  next_available_slot_tool fs t args =
    [("success", PBool true); ("date", PStr d); ("time", PStr tm)] ->
  is_slot_available_tool fs t
    [("date", PStr d); ("time", PStr tm); ("duration", get args "duration")] =
    [("success", PBool true); ("available", PBool true)].
Proof.
  unfold next_available_slot_tool.
  destruct (all [get args "after_date"; get args "after_time"; get args "duration"]) eqn:Hall;
    cbn [negb]; [|discriminate].
  assert (Hdur : truthy (get args "duration") = true).
  { unfold all in Hall. cbn [forallb] in Hall.
    destruct (truthy (get args "duration")); [reflexivity|].
    rewrite !andb_false_r in Hall. discriminate. }
  unfold with_duration.
  destruct (py_int (get args "duration")) as [z|[]] eqn:Hz; try discriminate.
  destruct (next_available_slot_v fs t (get args "after_date") (get args "after_time") z)
    as [[[ds ts]|]|e] eqn:Hn; try discriminate.
  2:{ destruct e; discriminate. }
  intros H. injection H as <- <-.
  destruct (next_available_slot_v_strings _ _ _ _ _ _ Hn) as (sa & sb & Ea & Eb).
  rewrite Ea, Eb in Hn.
  fold (next_available_slot fs t (sa, sb) z) in Hn.
  destruct (next_available_slot_found _ _ _ _ _ _ _ Hn)
    as (d & m & c & _ & _ & _ & _ & _ & _ & _ & _ & Hok & _).
  destruct (is_slot_available_true_inv _ _ _ _ _ Hok) as (d' & m' & _ & Hd & Hm & _).
  unfold is_slot_available_tool. cbn [get find fst snd String.eqb Ascii.eqb Bool.eqb].
  unfold all. cbn [forallb truthy].
  rewrite (parse_date_nonempty _ _ Hd), (parse_time_nonempty _ _ Hm), Hdur. cbn [negb andb].
  unfold with_duration. rewrite Hz.
  fold (is_slot_available fs t ds ts z). rewrite Hok. reflexivity.
Qed.

(** Witness: on an empty calendar the tool finds 2025-04-01 09:00 for a
    duration given as the string "30", and the check tool confirms it. *)
Lemma next_slot_tool_confirmed_witness :
  is_slot_available_tool healthy empty_table
    [("date", PStr "2025-04-01"); ("time", PStr "09:00"); ("duration", PStr "30")] =
    [("success", PBool true); ("available", PBool true)].
Proof.
  apply (next_slot_tool_confirmed healthy empty_table
           [("after_date", PStr "2025-04-01"); ("after_time", PStr "08:00");
            ("duration", PStr "30")] "2025-04-01" "09:00").
  vm_compute. reflexivity.
Defined.

(* ------------------------------------------------------------------ *)
(** ** [_parse_time] and [_format_time] *)

Lemma parse_time_unpadded_table :
  forallb (fun h => forallb (fun m =>
             match parse_time (dec_string h ++ ":" ++ dec_string m) with
             | Some v => v =? 60 * h + m
             | None => false
             end) (map Z.of_nat (seq 0 60))) (map Z.of_nat (seq 0 24)) = true.
Proof. vm_compute. reflexivity. Qed.

Lemma in_range_seq (n : nat) z : 0 <= z < Z.of_nat n -> In z (map Z.of_nat (seq 0 n)).
Proof.
  intros H. apply in_map_iff. exists (Z.to_nat z). split; [lia|].
  apply in_seq. lia.
Qed.

(** [_parse_time] reads hours and minutes with or without a leading
    zero ([strptime]'s [%H] and [%M] take one or two digits): for every
    hour [h] and minute [m], "h:m" written without padding and the
    [HH:MM] text of [_format_time] both parse to [60 h + m].  Whatever it
    accepts is a minute of the day, which [_format_time] writes back to
    a text that parses to the same minute. *)
Theorem parse_time_forms :
  (forall h m, 0 <= h < 24 -> 0 <= m < 60 ->
     parse_time (dec_string h ++ ":" ++ dec_string m) = Some (60 * h + m) /\
     parse_time (format_time (60 * h + m)) = Some (60 * h + m)) /\
  (forall s v, parse_time s = Some v ->
     0 <= v < 1440 /\ parse_time (format_time v) = Some v).
Proof.
  split.
  - intros h m Hh Hm. split; [|apply parse_format_time; lia].
    pose proof parse_time_unpadded_table as T.
    rewrite forallb_forall in T. specialize (T h (in_range_seq 24 h ltac:(lia))).
    rewrite forallb_forall in T. specialize (T m (in_range_seq 60 m ltac:(lia))).
    destruct (parse_time (dec_string h ++ ":" ++ dec_string m)) as [v|]; [|discriminate].
    apply Z.eqb_eq in T. subst. reflexivity.
  - intros s v H. pose proof (parse_time_range _ _ H).
    split; [assumption | apply parse_format_time; assumption].
Qed.

(** Witness: "9:5" parses to 09:05. *)
Lemma parse_time_forms_witness :
  parse_time (dec_string 9 ++ ":" ++ dec_string 5) = Some (60 * 9 + 5) /\
  parse_time (format_time (60 * 9 + 5)) = Some (60 * 9 + 5).
Proof. apply (proj1 parse_time_forms 9 5); lia. Defined.

(* ------------------------------------------------------------------ *)
(** ** The MCP server's handler *)

(** [cancel_booking] never raises: a failing DELETE is caught. *)
Lemma cancel_booking_ok fs t id : exists r t', cancel_booking fs t id = Ok (r, t').
Proof.
  unfold cancel_booking.
  destruct (id <=? 0); [eauto|].
  unfold delete_booking, raise_if.
  destruct (delete_fails fs); cbn [bind try_with]; [eauto|].
  rewrite removed_count_pos.
  destruct (existsb _ _); cbn [try_with]; eauto.
Qed.

Lemma cancel_booking_py_ok fs t v : exists r t', cancel_booking_py fs t v = Ok (r, t').
Proof.
  destruct v as [|[]| |]; cbn [cancel_booking_py]; eauto using cancel_booking_ok.
Qed.

(** The server's [cancel_booking] tool always answers that the booking
    has been cancelled, with the store [cancel_booking] leaves, whether
    or not a booking was removed: also for an unknown id, a non-positive
    id, a non-integer id or a failing DELETE.  An integer id above
    [sqlite_max_int] is excluded: binding it raises [OverflowError]. *)
Theorem server_cancel_always_reports fs t args v :
  subscript args "booking_id" = Some v ->
  (forall z, v = PInt z -> z <= sqlite_max_int) ->
  exists removed t',
    cancel_booking_py fs t v = Ok (removed, t') /\
    calendar_tool fs t "cancel_booking" args =
      SOk (RText ("Booking " ++ py_str v ++ " has been cancelled successfully.")) t'.
Proof.
  intros Hk _. destruct (cancel_booking_py_ok fs t v) as (r & t' & Hc).
  exists r, t'. split; [exact Hc|].
  unfold calendar_tool. cbn [String.eqb Ascii.eqb Bool.eqb].
  unfold with_key. rewrite Hk. unfold engine_call. rewrite Hc. reflexivity.
Qed.

(** Witness: cancelling booking 7 on an empty store removes nothing and
    is still reported as cancelled. *)
Lemma server_cancel_always_reports_witness :
  exists removed t',
    cancel_booking_py healthy empty_table (PInt 7) = Ok (removed, t') /\
    calendar_tool healthy empty_table "cancel_booking" [("booking_id", PInt 7)] =
      SOk (RText ("Booking " ++ py_str (PInt 7) ++ " has been cancelled successfully.")) t'.
Proof.
  apply (server_cancel_always_reports healthy empty_table [("booking_id", PInt 7)] (PInt 7)).
  - reflexivity.
  - intros z Hz. injection Hz as <-. unfold sqlite_max_int. lia.
Defined.



(* ------------------------------------------------------------------ *)
(** ** [book_slot] on Python values, and [book_slot_tool] *)

(** Whatever the argument values, a booking [book_slot] makes is one
    new row, appended under the next id. *)
Lemma book_slot_v_ok fs t a b dur c s id t' :
  book_slot_v fs t a b dur c s = Ok (id, t') ->
  id = sqlite_seq t + 1 /\ sqlite_seq t' = id /\
  exists bk, rows t' = (rows t ++ [bk])%list /\ booking_id bk = id.
Proof.
  unfold book_slot_v.
  destruct (validate_duration dur); cbn [bind]; [|discriminate].
  destruct (py_len c); cbn [bind]; [|discriminate].
  destruct (32 <? _); [discriminate|].
  destruct (py_len s); cbn [bind]; [|discriminate].
  destruct (100 <? _); [discriminate|].
  destruct (is_slot_available_v fs t a b dur) as [[]|]; cbn [bind negb]; try discriminate.
  match goal with |- try_with ?body _ = _ -> _ => destruct body as [[id' t'']|e] eqn:Hb end;
    cbn [try_with].
  2:{ destruct e; try discriminate. destruct (str_contains _ _); discriminate. }
  intros H. injection H as -> ->.
  destruct (parse_date_v a); cbn [bind] in Hb; [|discriminate].
  destruct (parse_time_v b); cbn [bind] in Hb; [|discriminate].
  destruct (dt_add _ _); cbn [bind] in Hb; [|discriminate].
  unfold insert_booking, raise_if in Hb. destruct (insert_fails fs); [discriminate|].
  injection Hb as <- <-. cbn [rows sqlite_seq].
  split; [reflexivity|]. split; [reflexivity|]. eexists. split; reflexivity.
Qed.

(** [book_slot_tool] changes the store only when it reports success,
    and then the id it reports is that of the one row it appended. *)
Theorem book_slot_tool_writes_only_on_success fs t args resp t' :
  book_slot_tool fs t args = (resp, t') ->
  t' = t \/
  (resp = [("success", PBool true); ("booked", PInt (sqlite_seq t + 1))] /\
   sqlite_seq t' = sqlite_seq t + 1 /\
   exists bk, rows t' = (rows t ++ [bk])%list /\ booking_id bk = sqlite_seq t + 1).
Proof.
  unfold book_slot_tool.
  destruct (negb _); [intros H; injection H as _ <-; left; reflexivity|].
  unfold with_duration.
  destruct (py_int (get args "duration")) as [z|[]];
    try (intros H; injection H as _ <-; left; reflexivity).
  destruct (book_slot_v fs t _ _ z _ _) as [[id t'']|e] eqn:Hb;
    [|intros H; injection H as _ <-; left; reflexivity].
  intros H. injection H as <- <-. right.
  destruct (book_slot_v_ok _ _ _ _ _ _ _ _ _ Hb) as (-> & Hs & bk & Hr & Hid).
  split; [reflexivity|]. split; [exact Hs|]. exists bk. split; [exact Hr | exact Hid].
Qed.

(** Witness: booking 2025-04-01 10:00 for 60 minutes on an empty store. *)
Lemma book_slot_tool_writes_only_on_success_witness :
  mkTable [mkBooking 1 "2025-04-01" "10:00" "11:00" 60 "client123" "Haircut"] 1 = empty_table \/
  ([("success", PBool true); ("booked", PInt 1)] =
     [("success", PBool true); ("booked", PInt (sqlite_seq empty_table + 1))] /\
   sqlite_seq (mkTable [mkBooking 1 "2025-04-01" "10:00" "11:00" 60 "client123" "Haircut"] 1)
     = sqlite_seq empty_table + 1 /\
   exists bk,
     rows (mkTable [mkBooking 1 "2025-04-01" "10:00" "11:00" 60 "client123" "Haircut"] 1)
       = (rows empty_table ++ [bk])%list /\
     booking_id bk = sqlite_seq empty_table + 1).
Proof.
  apply (book_slot_tool_writes_only_on_success healthy empty_table
           [("date", PStr "2025-04-01"); ("time", PStr "10:00"); ("duration", PInt 60);
            ("client_id", PStr "client123"); ("service_name", PStr "Haircut")]).
  vm_compute. reflexivity.
Defined.

(* ------------------------------------------------------------------ *)
(** ** Cancelling twice *)

Lemma existsb_filter_removed id l :
  existsb (fun b => booking_id b =? id) (filter (fun b => negb (booking_id b =? id)) l) = false.
Proof.
  induction l as [|b r IH]; [reflexivity|]. cbn [filter].
  destruct (booking_id b =? id) eqn:E; cbn [negb existsb]; [exact IH|].
  rewrite E. exact IH.
Qed.

Lemma filter_idem {A} (f : A -> bool) l : filter f (filter f l) = filter f l.
Proof.
  induction l as [|a r IH]; [reflexivity|]. cbn [filter].
  destruct (f a) eqn:E; cbn [filter]; [rewrite E|]; rewrite IH; reflexivity.
Qed.

(** Cancelling is idempotent: after any [cancel_booking] of an id, a
    second one of the same id returns [False] and leaves the store as
    the first left it. *)
Theorem cancel_booking_twice fs t id r t' :
  cancel_booking fs t id = Ok (r, t') -> cancel_booking fs t' id = Ok (false, t').
Proof.
  intros H. destruct (Z.leb_spec id 0) as [Hle|Hgt].
  - unfold cancel_booking in *.
    replace (id <=? 0) with true in * by (symmetry; apply Z.leb_le; lia).
    injection H as _ <-. reflexivity.
  - destruct (delete_fails fs) as [msg|] eqn:Hd.
    + unfold cancel_booking in *.
      replace (id <=? 0) with false in * by (symmetry; apply Z.leb_gt; lia).
      unfold delete_booking, raise_if in *. rewrite Hd in *. cbn [bind try_with] in *.
      injection H as _ <-. reflexivity.
    + rewrite (cancel_booking_eval fs t id Hd Hgt) in H. injection H as _ <-.
      rewrite (cancel_booking_eval fs _ id Hd Hgt). cbn [rows sqlite_seq].
      rewrite existsb_filter_removed, filter_idem. reflexivity.
Qed.

(** Witness: cancelling booking 1 twice. *)
Lemma cancel_booking_twice_witness :
  cancel_booking healthy (mkTable [] 1) 1 = Ok (false, mkTable [] 1).
Proof.
  apply (cancel_booking_twice healthy
           (mkTable [mkBooking 1 "2025-04-01" "10:00" "11:00" 60 "client123" "Haircut"] 1)
           1 true).
  vm_compute. reflexivity.
Defined.

(* ------------------------------------------------------------------ *)
(** ** Invalid durations and unparsable dates in the engine *)

Lemma validate_duration_invalid d :
  valid_duration d = false ->
  validate_duration d =
    Raise (ValueError "Duration must be a positive integer multiple of 15 minutes.").
Proof.
  unfold valid_duration, validate_duration. intros H.
  destruct (Z.leb_spec d 0); [reflexivity|].
  replace (0 <? d) with true in H by (symmetry; apply Z.ltb_lt; lia).
  cbn [andb] in H. rewrite H. reflexivity.
Qed.

(** An invalid duration (not a positive multiple of 15) makes
    [book_slot], [slots_available_on_day] and [next_available_slot]
    raise the [ValueError] of [_validate_duration] before anything else.
    For a valid duration, a date that does not parse gives the empty
    list of slots, and a date or time that does not parse gives no next
    slot; neither raises. *)
Theorem engine_duration_and_parse_edges fs t date time dur :
  (valid_duration dur = false ->
     (forall c s, book_slot fs t date time dur c s =
        Raise (ValueError "Duration must be a positive integer multiple of 15 minutes.")) /\
     slots_available_on_day fs t date dur =
       Raise (ValueError "Duration must be a positive integer multiple of 15 minutes.") /\
     next_available_slot fs t (date, time) dur =
       Raise (ValueError "Duration must be a positive integer multiple of 15 minutes.")) /\
  (valid_duration dur = true -> parse_date date = None ->
     slots_available_on_day fs t date dur = Ok []) /\
  (valid_duration dur = true -> parse_date date = None \/ parse_time time = None ->
     next_available_slot fs t (date, time) dur = Ok None).
Proof.
  split; [|split].
  - intros Hv. pose proof (validate_duration_invalid _ Hv) as E.
    split; [|split].
    + intros c s. unfold book_slot, book_slot_v. rewrite E. reflexivity.
    + unfold slots_available_on_day, slots_available_on_day_v. rewrite E. reflexivity.
    + unfold next_available_slot, next_available_slot_v. rewrite E. reflexivity.
  - intros Hv Hd. rewrite (slots_available_on_day_eq _ _ _ _ Hv). unfold day_candidates.
    generalize (map format_time (half_hours (9 * 60) 16)).
    intros l. induction l as [|c l IHl]; [reflexivity|]. cbn [filter_available].
    rewrite is_slot_available_unparsable by auto. cbn [bind]. rewrite IHl. reflexivity.
  - intros Hv Hp. unfold next_available_slot, next_available_slot_v.
    rewrite (validate_duration_ok _ Hv). cbn [bind fst snd]. unfold parse_date_v, parse_time_v.
    destruct (parse_date date) as [d|]; cbn [bind try_with]; [|reflexivity].
    destruct Hp as [Hp|Hp]; [discriminate|]. rewrite Hp. reflexivity.
Qed.

(** Witness: 2025-02-30 does not parse. *)
Lemma engine_duration_and_parse_edges_witness :
  slots_available_on_day healthy empty_table "2025-02-30" 30 = Ok [].
Proof.
  apply (proj1 (proj2 (engine_duration_and_parse_edges healthy empty_table
                         "2025-02-30" "10:00" 30))); reflexivity.
Defined.
